(** * Educational AI Agent: the chat front ends and their turn logic

    A shallow embedding of the two React components of the repository:

    - [EducationalAIAgent] (src/frontend/src/app.jsx), the self-contained
      component that detects a topic by keyword, updates the learner
      profile and the session counters, and answers from canned replies;
    - [App], the TypeScript component that posts the message to the REST
      backend and folds the server's answer into the same state.

    React state is a record; a state setter called with an updater
    function [prev => ...] is a function on that record, applied in the
    order the handlers queue them.  An async handler is cut at its
    [await]: the part that runs when the event fires, and the part that
    runs when the awaited promise settles.

    Text is modelled as [string] (sequences of 8-bit characters): the
    messages are taken to be ASCII text, on which [toLowerCase] and [trim]
    below are what JavaScript computes. *)

From Stdlib Require Import Bool Arith ZArith Lia List Ascii String QArith.
From Stdlib Require Import DecimalString DecimalZ DecimalPos.
Import ListNotations.
Open Scope string_scope.
Open Scope list_scope.
Open Scope Z_scope.

(* ------------------------------------------------------------------ *)
(** ** JavaScript string and array primitives used by the components *)

Module JS.

(** [String.prototype.toLowerCase] on one character. *)
Definition lowerChar (c : ascii) : ascii :=
  let n := nat_of_ascii c in
  if (Nat.leb 65 n && Nat.leb n 90)%bool then ascii_of_nat (n + 32) else c.

(** [s.toLowerCase()] *)
Fixpoint toLowerCase (s : string) : string :=
  match s with
  | EmptyString => EmptyString
  | String c r => String (lowerChar c) (toLowerCase r)
  end.

(** [s.includes(kw)]: [kw] occurs in [s] as a contiguous substring. *)
Fixpoint includes (s kw : string) : bool :=
  (String.prefix kw s
   || match s with
      | EmptyString => false
      | String _ r => includes r kw
      end)%bool.

(** White space removed by [trim]: tab, line feed, vertical tab, form
    feed, carriage return and space. *)
Definition isSpace (c : ascii) : bool :=
  let n := nat_of_ascii c in
  ((Nat.leb 9 n && Nat.leb n 13) || Nat.eqb n 32)%bool.

Fixpoint trimStart (s : string) : string :=
  match s with
  | EmptyString => EmptyString
  | String c r => if isSpace c then trimStart r else s
  end.

Fixpoint trimEnd (s : string) : string :=
  match s with
  | EmptyString => EmptyString
  | String c r =>
      match trimEnd r with
      | EmptyString => if isSpace c then EmptyString else String c EmptyString
      | r' => String c r'
      end
  end.

(** [s.trim()] *)
Definition trim (s : string) : string := trimEnd (trimStart s).

(** The string is empty or made of white space only. *)
Fixpoint whitespaceOnly (s : string) : bool :=
  match s with
  | EmptyString => true
  | String c r => (isSpace c && whitespaceOnly r)%bool
  end.

(** Truthiness of a string: only the empty string is falsy. *)
Definition truthy (s : string) : bool :=
  match s with
  | EmptyString => false
  | String _ _ => true
  end.

(** [arr.includes(x)] on an array of strings. *)
Definition arrIncludes (arr : list string) (x : string) : bool :=
  existsb (String.eqb x) arr.

(** [[...new Set(arr)]]: the distinct elements of [arr], each at the
    position of its first occurrence (a Set iterates in insertion order). *)
Definition setAdd (acc : list string) (x : string) : list string :=
  if arrIncludes acc x then acc else acc ++ [x].

Definition fromSet (arr : list string) : list string :=
  fold_left setAdd arr [].

End JS.

(* ------------------------------------------------------------------ *)
(** ** app.jsx: the self-contained component *)

Module EducationalAIAgent.

Import JS.

Inductive Role := user | assistant.

(** The string literals the component answers with.  They are named, not
    spelled out: no property below depends on their wording. *)
Inductive Reply :=
| Greeting
| AboutMachineLearning
| AboutNeuralNetworks
| AboutNLP
| AboutComputerVision
| AboutEthics
| AboutGenerativeAI
| GettingStarted
| Overview.

Inductive Content :=
| Typed (text : string)
| Canned (r : Reply).

Record Message := { role : Role; content : Content }.

Record LearnerProfile := {
  name : string;
  level : string;
  progress : Z;
  topics : list string
}.

Record SessionData := {
  questionsAsked : Z;
  topicsExplored : list string;
  sessionTime : Z
}.

(** The [useState] cells of the component. *)
Record State := {
  messages : list Message;
  input : string;
  isLoading : bool;
  learnerProfile : LearnerProfile;
  sessionData : SessionData
}.

Definition initialState : State :=
  {| messages := [ {| role := assistant; content := Canned Greeting |} ];
     input := "";
     isLoading := false;
     learnerProfile :=
       {| name := "Student"; level := "Beginner"; progress := 0; topics := [] |};
     sessionData :=
       {| questionsAsked := 0; topicsExplored := []; sessionTime := 0 |} |}.

(** State setters, each taking the updater [prev => next]. *)
Definition setMessages (f : list Message -> list Message) (s : State) : State :=
  {| messages := f (messages s); input := input s; isLoading := isLoading s;
     learnerProfile := learnerProfile s; sessionData := sessionData s |}.

Definition setInput (v : string) (s : State) : State :=
  {| messages := messages s; input := v; isLoading := isLoading s;
     learnerProfile := learnerProfile s; sessionData := sessionData s |}.

Definition setIsLoading (b : bool) (s : State) : State :=
  {| messages := messages s; input := input s; isLoading := b;
     learnerProfile := learnerProfile s; sessionData := sessionData s |}.

Definition setLearnerProfile (f : LearnerProfile -> LearnerProfile) (s : State) : State :=
  {| messages := messages s; input := input s; isLoading := isLoading s;
     learnerProfile := f (learnerProfile s); sessionData := sessionData s |}.

Definition setSessionData (f : SessionData -> SessionData) (s : State) : State :=
  {| messages := messages s; input := input s; isLoading := isLoading s;
     learnerProfile := learnerProfile s; sessionData := f (sessionData s) |}.

Record Topic := { topicName : string; keywords : list string }.

Definition aiTopics : list Topic :=
  [ {| topicName := "Machine Learning Basics";
       keywords := ["machine learning"; "ml"; "training"; "model"] |};
    {| topicName := "Neural Networks";
       keywords := ["neural"; "network"; "deep learning"; "neurons"] |};
    {| topicName := "Natural Language Processing";
       keywords := ["nlp"; "language"; "text"; "chatbot"] |};
    {| topicName := "Computer Vision";
       keywords := ["vision"; "image"; "recognition"; "detection"] |};
    {| topicName := "AI Ethics";
       keywords := ["ethics"; "bias"; "fairness"; "responsible"] |};
    {| topicName := "Generative AI";
       keywords := ["generative"; "gpt"; "llm"; "generate"] |} ].

(** [topic.keywords.some(kw => lowerMsg.includes(kw))] *)
Definition matches (lowerMsg : string) (topic : Topic) : bool :=
  existsb (fun kw => includes lowerMsg kw) (keywords topic).

(** The detection loop of [generateResponse]: [detectedTopic] starts as
    [null]; the first topic of the table that matches sets it and breaks
    out of the loop. *)
Fixpoint detectLoop (lowerMsg : string) (table : list Topic) : option string :=
  match table with
  | [] => None
  | topic :: rest =>
      if matches lowerMsg topic then Some (topicName topic)
      else detectLoop lowerMsg rest
  end.

(** Topic detection as a function of the message as typed. *)
Definition detectTopic (userMessage : string) : option string :=
  detectLoop (toLowerCase userMessage) aiTopics.

(** The profile and session updates of [generateResponse].  [closure] is
    the [sessionData] of the render in which the handler was created: the
    test reads it, while the setters act on the state they find. *)
Definition recordTopic (closure : SessionData) (userMessage : string)
    (st : State) : State :=
  match detectTopic userMessage with
  | Some detectedTopic =>
      if (truthy detectedTopic
          && negb (arrIncludes (topicsExplored closure) detectedTopic))%bool
      then
        setLearnerProfile
          (fun prev =>
             {| name := name prev; level := level prev;
                progress := Z.min 100 (progress prev + 15);
                topics := fromSet (topics prev ++ [detectedTopic]) |})
          (setSessionData
             (fun prev =>
                {| questionsAsked := questionsAsked prev;
                   topicsExplored := topicsExplored prev ++ [detectedTopic];
                   sessionTime := sessionTime prev |})
             st)
      else st
  | None => st
  end.

(** The reply cascade of [generateResponse], after the simulated delay. *)
Definition chooseReply (userMessage : string) : Reply :=
  let lowerMsg := toLowerCase userMessage in
  if (includes lowerMsg "machine learning" || includes lowerMsg "ml")%bool
  then AboutMachineLearning
  else if (includes lowerMsg "neural" || includes lowerMsg "deep learning")%bool
  then AboutNeuralNetworks
  else if (includes lowerMsg "nlp" || includes lowerMsg "language")%bool
  then AboutNLP
  else if (includes lowerMsg "vision" || includes lowerMsg "image")%bool
  then AboutComputerVision
  else if (includes lowerMsg "ethics" || includes lowerMsg "bias")%bool
  then AboutEthics
  else if (includes lowerMsg "generative" || includes lowerMsg "gpt"
           || includes lowerMsg "llm")%bool
  then AboutGenerativeAI
  else if (includes lowerMsg "start" || includes lowerMsg "begin"
           || includes lowerMsg "learn")%bool
  then GettingStarted
  else Overview.

(** [generateResponse]: the state updates it queues before its [await],
    and the reply it returns after it. *)
Definition generateResponse (closure : SessionData) (userMessage : string)
    (st : State) : State * Reply :=
  (recordTopic closure userMessage st, chooseReply userMessage).

(** [handleSend], one call run to completion. *)
Definition handleSend (s : State) : State :=
  if (negb (truthy (trim (input s))) || isLoading s)%bool then s
  else
    let userMessage := trim (input s) in
    let s1 := setMessages
                (fun prev => prev ++ [ {| role := user; content := Typed userMessage |} ]) s in
    let s2 := setInput "" s1 in
    let s3 := setIsLoading true s2 in
    let s4 := setSessionData
                (fun prev =>
                   {| questionsAsked := questionsAsked prev + 1;
                      topicsExplored := topicsExplored prev;
                      sessionTime := sessionTime prev |}) s3 in
    let (s5, response) := generateResponse (sessionData s) userMessage s4 in
    let s6 := setMessages
                (fun prev => prev ++ [ {| role := assistant; content := Canned response |} ])
                s5 in
    setIsLoading false s6.

(** [handleSend] up to the [await] inside [generateResponse]: [None] when
    the guard returns at once, otherwise the trimmed message and the state
    the handler leaves while it waits. *)
Definition handleSend_begin (s : State) : option (string * State) :=
  if (negb (truthy (trim (input s))) || isLoading s)%bool then None
  else
    let userMessage := trim (input s) in
    let s1 := setMessages
                (fun prev => prev ++ [ {| role := user; content := Typed userMessage |} ]) s in
    let s2 := setInput "" s1 in
    let s3 := setIsLoading true s2 in
    let s4 := setSessionData
                (fun prev =>
                   {| questionsAsked := questionsAsked prev + 1;
                      topicsExplored := topicsExplored prev;
                      sessionTime := sessionTime prev |}) s3 in
    Some (userMessage, fst (generateResponse (sessionData s) userMessage s4)).

(** [handleSend] from that [await] on: the reply is appended and the
    loading flag cleared.  The reply does not depend on the state. *)
Definition handleSend_end (userMessage : string) (st : State) : State :=
  let response := snd (generateResponse (sessionData st) userMessage st) in
  setIsLoading false
    (setMessages
       (fun prev => prev ++ [ {| role := assistant; content := Canned response |} ])
       st).

(** The session clock of the second [useEffect]. *)
Definition tick (s : State) : State :=
  setSessionData
    (fun prev =>
       {| questionsAsked := questionsAsked prev;
          topicsExplored := topicsExplored prev;
          sessionTime := sessionTime prev + 1 |}) s.

(** What can happen to the mounted component: the learner edits the input
    box (typing, or a quick-prompt button), presses Send or Enter, the
    one-second interval fires, or the pending reply arrives. *)
Inductive Event :=
| EvInput (text : string)
| EvSend
| EvTick
| EvReply.

(** The component together with the call of [handleSend] that is
    suspended at its [await], if any. *)
Record Config := { ui : State; pending : option string }.

Definition initialConfig : Config := {| ui := initialState; pending := None |}.

Definition step (c : Config) (e : Event) : Config :=
  match e with
  | EvInput text => {| ui := setInput text (ui c); pending := pending c |}
  | EvTick => {| ui := tick (ui c); pending := pending c |}
  | EvSend =>
      match handleSend_begin (ui c) with
      | None => c
      | Some (userMessage, st) => {| ui := st; pending := Some userMessage |}
      end
  | EvReply =>
      match pending c with
      | None => c
      | Some userMessage =>
          {| ui := handleSend_end userMessage (ui c); pending := None |}
      end
  end.

Definition run (c : Config) (evs : list Event) : Config := fold_left step evs c.

(** A complete turn: the learner enters [text], sends it, and the reply
    arrives. *)
Definition turn (s : State) (text : string) : State :=
  handleSend (setInput text s).

Definition turns (s : State) (texts : list string) : State :=
  fold_left turn texts s.

End EducationalAIAgent.

(* ------------------------------------------------------------------ *)
(** ** The component [App], backed by the REST API *)

Module App.

Import JS.

Inductive Role := user | assistant.

(** [interface Message]; [timestamp] is never written by the component
    and is left out. *)
Record Message := {
  role : Role;
  content : string;
  topics_of : option (list string)
}.

Record LearnerProfile := {
  name : string;
  level : string;
  progress : Z;
  topics : list string
}.

Record SessionData := {
  questionsAsked : Z;
  topicsExplored : list string;
  sessionTime : Z
}.

Record State := {
  messages : list Message;
  input : string;
  isLoading : bool;
  learnerProfile : LearnerProfile;
  sessionData : SessionData
}.

Definition greeting : string :=
  "Hello! I'm your AI Learning Assistant. I'm here to help you learn about artificial intelligence and its latest features. What would you like to learn today?".

(** The reply of the [catch] branch of [handleSend]. *)
Definition fallbackReply : string :=
  "I'm having trouble connecting right now. Please try again in a moment.".

Definition initialState : State :=
  {| messages := [ {| role := assistant; content := greeting; topics_of := None |} ];
     input := "";
     isLoading := false;
     learnerProfile :=
       {| name := "Student"; level := "Beginner"; progress := 0; topics := [] |};
     sessionData :=
       {| questionsAsked := 0; topicsExplored := []; sessionTime := 0 |} |}.

Definition setMessages (f : list Message -> list Message) (s : State) : State :=
  {| messages := f (messages s); input := input s; isLoading := isLoading s;
     learnerProfile := learnerProfile s; sessionData := sessionData s |}.

Definition setInput (v : string) (s : State) : State :=
  {| messages := messages s; input := v; isLoading := isLoading s;
     learnerProfile := learnerProfile s; sessionData := sessionData s |}.

Definition setIsLoading (b : bool) (s : State) : State :=
  {| messages := messages s; input := input s; isLoading := b;
     learnerProfile := learnerProfile s; sessionData := sessionData s |}.

Definition setLearnerProfile (f : LearnerProfile -> LearnerProfile) (s : State) : State :=
  {| messages := messages s; input := input s; isLoading := isLoading s;
     learnerProfile := f (learnerProfile s); sessionData := sessionData s |}.

Definition setSessionData (f : SessionData -> SessionData) (s : State) : State :=
  {| messages := messages s; input := input s; isLoading := isLoading s;
     learnerProfile := learnerProfile s; sessionData := f (sessionData s) |}.

(** The body of a successful [POST /api/message] response, as far as the
    component reads it; [topics_detected] may be absent. *)
Record ServerData := {
  message : string;
  student_level : string;
  server_progress : Z;
  topics_detected : option (list string)
}.

(** How the request of one turn ends: [fetch] or [response.json()]
    rejects, the server answers with a status that is not ok, or it
    answers with a body. *)
Inductive Outcome :=
| Rejected
| NotOk
| Ok (data : ServerData).

(** [data.topics_detected || []] *)
Definition orEmpty (o : option (list string)) : list string :=
  match o with
  | Some l => l
  | None => []
  end.

(** [data.topics_detected?.length > 0] *)
Definition hasTopics (o : option (list string)) : bool :=
  match o with
  | Some (_ :: _) => true
  | _ => false
  end.

Definition handleServerResponse (data : ServerData) (s : State) : State :=
  let s1 := setMessages
              (fun prev => prev ++ [ {| role := assistant; content := message data;
                                        topics_of := topics_detected data |} ]) s in
  let s2 := setLearnerProfile
              (fun prev =>
                 {| name := name prev;
                    level := student_level data;
                    progress := server_progress data;
                    topics := fromSet (topics prev ++ orEmpty (topics_detected data)) |}) s1 in
  if hasTopics (topics_detected data) then
    setSessionData
      (fun prev =>
         {| questionsAsked := questionsAsked prev;
            topicsExplored :=
              fromSet (topicsExplored prev ++ orEmpty (topics_detected data));
            sessionTime := sessionTime prev |}) s2
  else s2.

(** [handleSend] up to the [await fetch(...)]. *)
Definition handleSend_begin (s : State) : option (string * State) :=
  if (negb (truthy (trim (input s))) || isLoading s)%bool then None
  else
    let userMessage := trim (input s) in
    let s1 := setMessages
                (fun prev => prev ++ [ {| role := user; content := userMessage;
                                          topics_of := None |} ]) s in
    let s2 := setInput "" s1 in
    let s3 := setIsLoading true s2 in
    Some (userMessage,
          setSessionData
            (fun prev =>
               {| questionsAsked := questionsAsked prev + 1;
                  topicsExplored := topicsExplored prev;
                  sessionTime := sessionTime prev |}) s3).

(** The [try] / [catch] / [finally] of [handleSend], once the request has
    ended with outcome [o]. *)
Definition handleSend_end (o : Outcome) (st : State) : State :=
  let st' :=
    match o with
    | Ok data => handleServerResponse data st
    | Rejected | NotOk =>
        setMessages
          (fun prev => prev ++ [ {| role := assistant; content := fallbackReply;
                                    topics_of := None |} ]) st
    end in
  setIsLoading false st'.

Definition handleSend (o : Outcome) (s : State) : State :=
  match handleSend_begin s with
  | None => s
  | Some (_, st) => handleSend_end o st
  end.

(** The request fails: anything but a body. *)
Definition failed (o : Outcome) : bool :=
  match o with
  | Ok _ => false
  | _ => true
  end.

End App.

(* ------------------------------------------------------------------ *)
(** ** The durable learner record kept behind the API *)

Module Backend.

Import JS.

(** Modelled from the spec: the profile's [topicMastery] map.  The profile
    store of the Python backend is not among the sources; the spec (4.4,
    transition 4b) has every newly seen topic that is not already in
    [topicMastery] added with an initial mastery of 0. *)
Definition TopicMastery := list (string * Q).

Definition hasMastery (tm : TopicMastery) (topic : string) : bool :=
  existsb (fun e => String.eqb topic (fst e)) tm.

Definition addTopic (tm : TopicMastery) (topic : string) : TopicMastery :=
  if hasMastery tm topic then tm else tm ++ [(topic, 0%Q)].

Definition addTopics (tm : TopicMastery) (detected : list string) : TopicMastery :=
  fold_left addTopic detected tm.

(** Modelled from the spec: one day of the learning graph (3, 4.5); the
    Learning Graph Aggregator is not among the sources. *)
Record GraphEntry := {
  date : string;
  topicsTouched : list string;
  interactionCount : Z;
  progressSnapshot : Z
}.

Definition LearningGraph := list GraphEntry.

(** Modelled from the spec: [record] of the Learning Graph Aggregator
    (4.5), not among the sources.  It upserts the day's entry: the topics
    are united with [topicsTouched], [interactionCount] grows by the
    delta, [progressSnapshot] is overwritten; a day without an entry gets
    one appended. *)
Fixpoint record (g : LearningGraph) (day : string) (touched : list string)
    (interactionDelta : Z) (snapshot : Z) : LearningGraph :=
  match g with
  | [] =>
      [ {| date := day; topicsTouched := fromSet touched;
           interactionCount := interactionDelta; progressSnapshot := snapshot |} ]
  | e :: rest =>
      if String.eqb (date e) day then
        {| date := day;
           topicsTouched := fromSet (topicsTouched e ++ touched);
           interactionCount := interactionCount e + interactionDelta;
           progressSnapshot := snapshot |} :: rest
      else e :: record rest day touched interactionDelta snapshot
  end.

Definition entryOf (g : LearningGraph) (day : string) : option GraphEntry :=
  find (fun e => String.eqb (date e) day) g.

(** Modelled from the spec: the part of the commit (4.4, transitions 4b
    and 4c) that the front end does not keep: given the topics detected
    in the turn and the progress after it, the mastery map gains the new
    topics and the day's graph entry is upserted. *)
Definition commit (tm : TopicMastery) (g : LearningGraph) (today : string)
    (detected : list string) (progressAfter : Z) : TopicMastery * LearningGraph :=
  (addTopics tm detected, record g today detected 1 progressAfter).

End Backend.

(* ------------------------------------------------------------------ *)
(** ** The scenarios of the specification *)

Module Scenario.

Import JS EducationalAIAgent.

Definition machineLearning : string := "Machine Learning Basics".
Definition neuralNetworks : string := "Neural Networks".

Definition firstMessage : string := "What is machine learning?".
Definition followUp : string :=
  "Tell me about neural networks and machine learning".

(** The topics detected in one message, as the list the caller is told
    about: [detectedTopic] when it is set, nothing otherwise. *)
Definition detected (userMessage : string) : list string :=
  match detectTopic userMessage with
  | Some t => [t]
  | None => []
  end.

(** Every table entry one of whose keywords occurs in the message. *)
Definition matching (userMessage : string) : list string :=
  map topicName (filter (matches (toLowerCase userMessage)) aiTopics).

Definition afterFirst : State := turn initialState firstMessage.
Definition afterFollowUp : State := turn afterFirst followUp.

(** Twenty-five short questions in a row. *)
Definition longChat : State := turns initialState (repeat "hi" 25).

(** A profile five points below the top, with nothing explored yet. *)
Definition nearlyDone : State :=
  setLearnerProfile
    (fun prev => {| name := name prev; level := level prev;
                    progress := 95; topics := topics prev |})
    initialState.

(** The component while a question is in flight. *)
Definition inFlight : State :=
  match handleSend_begin (setInput firstMessage initialState) with
  | Some (_, st) => setInput "Explain Neural Networks" st
  | None => initialState
  end.

Definition appInFlight : App.State :=
  match App.handleSend_begin (App.setInput firstMessage App.initialState) with
  | Some (_, st) => App.setInput "Explain Neural Networks" st
  | None => App.initialState
  end.

End Scenario.

(* ------------------------------------------------------------------ *)
(** ** State invariants of app.jsx *)

Module Invariant.

Import JS EducationalAIAgent.

(** The topic a message adds: the detected one, unless the session has
    explored it already. *)
Definition newTopic (closure : SessionData) (userMessage : string) : option string :=
  match detectTopic userMessage with
  | Some t => if arrIncludes (topicsExplored closure) t then None else Some t
  | None => None
  end.

(** What holds of the profile and the session between events. *)
Record wellFormed (s : State) : Prop := {
  progress_lower : 0 <= progress (learnerProfile s);
  progress_upper : progress (learnerProfile s) <= 100;
  explored_distinct : NoDup (topicsExplored (sessionData s));
  topics_distinct : NoDup (topics (learnerProfile s))
}.

(** [handleSend] gets past its guard. *)
Definition accepted (s : State) : bool :=
  (truthy (trim (input s)) && negb (isLoading s))%bool.

Definition busy (c : Config) : bool :=
  match pending c with
  | Some _ => true
  | None => false
  end.

(** A configuration is consistent when its state is well formed and the
    loading flag is up exactly while a call of [handleSend] is suspended. *)
Definition consistent (c : Config) : Prop :=
  wellFormed (ui c) /\ isLoading (ui c) = busy c.

End Invariant.

(* ------------------------------------------------------------------ *)
(** ** What the components display: the session clock, the quick prompts *)

Module Display.

Import JS EducationalAIAgent.

(** [Number.MAX_SAFE_INTEGER]: up to it a JavaScript number holds every
    integer exactly. *)
Definition maxSafeInteger : Z := 9007199254740991.

(** [Number.prototype.toString] on an integer of that range: decimal
    digits, a minus sign before a negative number. *)
Definition toString (n : Z) : string := NilZero.string_of_int (Z.to_int n).

(** The first [n] characters of [pad] repeated; [rest] is what is left of
    the current copy. *)
Fixpoint cycle (n : nat) (pad rest : string) : string :=
  match n with
  | O => EmptyString
  | S k =>
      match rest with
      | String c r => String c (cycle k pad r)
      | EmptyString =>
          match pad with
          | String c r => String c (cycle k pad r)
          | EmptyString => EmptyString
          end
      end
  end.

(** [s.padStart(targetLength, pad)] *)
Definition padStart (targetLength : nat) (pad s : string) : string :=
  if Nat.leb targetLength (String.length s) then s
  else String.append (cycle (targetLength - String.length s) pad pad) s.

(** [formatTime], the same function in both components; [seconds] is an
    integer, on which [Math.floor(seconds / 60)] is the floor quotient and
    [%] the remainder with the sign of the dividend. *)
Definition formatTime (seconds : Z) : string :=
  let mins := seconds / 60 in
  let secs := Z.rem seconds 60 in
  String.append (toString mins)
    (String.append ":" (padStart 2 "0" (toString secs))).

(** The character of a decimal digit. *)
Definition digit (d : Z) : ascii := ascii_of_nat (48 + Z.to_nat d).

Definition quickPrompts : list string :=
  [ "What is Machine Learning?";
    "Explain Neural Networks";
    "How does NLP work?";
    "Tell me about AI Ethics" ].

(** The topic a canned reply is about, by the name the table gives it. *)
Definition replyTopic (r : Reply) : option string :=
  match r with
  | AboutMachineLearning => Some "Machine Learning Basics"
  | AboutNeuralNetworks => Some "Neural Networks"
  | AboutNLP => Some "Natural Language Processing"
  | AboutComputerVision => Some "Computer Vision"
  | AboutEthics => Some "AI Ethics"
  | AboutGenerativeAI => Some "Generative AI"
  | Greeting | GettingStarted | Overview => None
  end.

(** The names of the topic table. *)
Definition tableNames : list string := map topicName aiTopics.

Definition isTick (e : Event) : bool :=
  match e with
  | EvTick => true
  | _ => false
  end.

(** How often the one-second interval fired. *)
Definition ticks (evs : list Event) : nat := List.length (filter isTick evs).

(** What the counters of a reachable configuration satisfy. *)
Record settled (c : Config) : Prop := {
  settled_topics :
    topics (learnerProfile (ui c)) = topicsExplored (sessionData (ui c));
  settled_known : incl (topicsExplored (sessionData (ui c))) tableNames;
  settled_progress :
    progress (learnerProfile (ui c))
    = 15 * Z.of_nat (List.length (topicsExplored (sessionData (ui c))));
  settled_count :
    Z.of_nat (List.length (messages (ui c)))
    = 2 * questionsAsked (sessionData (ui c))
      + (if Invariant.busy c then 0 else 1)
}.

End Display.

(* ------------------------------------------------------------------ *)
(** ** [App]: the profile pushed and fetched from the server *)

Module AppSession.

Import JS App.

(** The body of a successful [GET /api/student/<id>/profile] response;
    [topics] may be absent. *)
Record ProfileData := {
  fetched_level : string;
  fetched_progress : Z;
  fetched_topics : option (list string)
}.

Inductive ProfileOutcome :=
| ProfileRejected
| ProfileNotOk
| ProfileOk (data : ProfileData).

(** [fetchProfile], once its request has ended: a body replaces the
    profile; a status that is not ok is skipped, a rejection is logged. *)
Definition fetchProfile (o : ProfileOutcome) (s : State) : State :=
  match o with
  | ProfileOk data =>
      setLearnerProfile
        (fun _ =>
           {| name := "Student";
              level := fetched_level data;
              progress := fetched_progress data;
              topics := orEmpty (fetched_topics data) |}) s
  | ProfileNotOk | ProfileRejected => s
  end.

(** The payload of a WebSocket [progress] event; every field may be
    absent. *)
Record ProgressData := {
  pushed_level : option string;
  pushed_progress : option Z;
  pushed_topics : option (list string)
}.

(** [data.level || prev.level]: an absent or empty string is falsy. *)
Definition orLevel (o : option string) (prev : string) : string :=
  match o with
  | Some l => if truthy l then l else prev
  | None => prev
  end.

(** [data.progress || prev.progress]: an absent number and 0 are falsy. *)
Definition orProgress (o : option Z) (prev : Z) : Z :=
  match o with
  | Some p => if Z.eqb p 0 then prev else p
  | None => prev
  end.

(** [data.topics || prev.topics]: every array is truthy, the empty one
    too. *)
Definition orTopics (o : option (list string)) (prev : list string) : list string :=
  match o with
  | Some l => l
  | None => prev
  end.

Definition updateProfile (data : ProgressData) (s : State) : State :=
  setLearnerProfile
    (fun prev =>
       {| name := name prev;
          level := orLevel (pushed_level data) (level prev);
          progress := orProgress (pushed_progress data) (progress prev);
          topics := orTopics (pushed_topics data) (topics prev) |}) s.

(** The session clock. *)
Definition tick (s : State) : State :=
  setSessionData
    (fun prev =>
       {| questionsAsked := questionsAsked prev;
          topicsExplored := topicsExplored prev;
          sessionTime := sessionTime prev + 1 |}) s.

(** What can happen to the mounted component: the learner edits the
    input, presses Send, the request of the turn in flight ends, the
    clock fires, the profile request ends, a progress event arrives. *)
Inductive Event :=
| EvInput (text : string)
| EvSend
| EvResponse (o : Outcome)
| EvTick
| EvProfile (o : ProfileOutcome)
| EvProgress (data : ProgressData).

Record Config := { ui : State; pending : option string }.

Definition initialConfig : Config := {| ui := initialState; pending := None |}.

Definition step (c : Config) (e : Event) : Config :=
  match e with
  | EvInput text => {| ui := setInput text (ui c); pending := pending c |}
  | EvSend =>
      match handleSend_begin (ui c) with
      | None => c
      | Some (userMessage, st) => {| ui := st; pending := Some userMessage |}
      end
  | EvResponse o =>
      match pending c with
      | None => c
      | Some _ => {| ui := handleSend_end o (ui c); pending := None |}
      end
  | EvTick => {| ui := tick (ui c); pending := pending c |}
  | EvProfile o => {| ui := fetchProfile o (ui c); pending := pending c |}
  | EvProgress data => {| ui := updateProfile data (ui c); pending := pending c |}
  end.

Definition run (c : Config) (evs : list Event) : Config := fold_left step evs c.

Definition busy (c : Config) : bool :=
  match pending c with
  | Some _ => true
  | None => false
  end.



End AppSession.

(* ------------------------------------------------------------------ *)
(** ** Facts about the string and array primitives *)

Section JSFacts.

Import JS.

Lemma lowerChar_idem (c : ascii) : lowerChar (lowerChar c) = lowerChar c.
Proof.
  destruct c as [[] [] [] [] [] [] [] []]; vm_compute; reflexivity.
Qed.

Lemma toLowerCase_idem (s : string) : toLowerCase (toLowerCase s) = toLowerCase s.
Proof.
  induction s as [|c r IH]; simpl; [reflexivity|].
  now rewrite lowerChar_idem, IH.
Qed.

Lemma truthy_false (s : string) : truthy s = false <-> s = "".
Proof.
  destruct s; simpl; split; intros H; congruence.
Qed.

Lemma arrIncludes_In (arr : list string) (x : string) :
  arrIncludes arr x = true <-> In x arr.
Proof.
  unfold arrIncludes. rewrite existsb_exists. split.
  - intros (y & Hy & E). apply String.eqb_eq in E. now subst.
  - intros H. exists x. split; [assumption | apply String.eqb_refl].
Qed.

Lemma arrIncludes_not_In (arr : list string) (x : string) :
  arrIncludes arr x = false <-> ~ In x arr.
Proof.
  rewrite <- arrIncludes_In. destruct (arrIncludes arr x); split; congruence.
Qed.

Lemma setAdd_NoDup (acc : list string) (x : string) :
  NoDup acc -> NoDup (setAdd acc x).
Proof.
  intros H. unfold setAdd. destruct (arrIncludes acc x) eqn:E; [assumption|].
  apply arrIncludes_not_In in E.
  apply NoDup_rev in H. rewrite <- (rev_involutive (acc ++ [x])).
  apply NoDup_rev. rewrite rev_app_distr. simpl. constructor.
  - now rewrite <- in_rev.
  - assumption.
Qed.

Lemma fold_setAdd_NoDup (l acc : list string) :
  NoDup acc -> NoDup (fold_left setAdd l acc).
Proof.
  revert acc. induction l as [|x l IH]; intros acc H; simpl; [assumption|].
  apply IH, setAdd_NoDup, H.
Qed.

Lemma fromSet_NoDup (l : list string) : NoDup (fromSet l).
Proof. apply fold_setAdd_NoDup. constructor. Qed.

Lemma fold_setAdd_fresh (l acc : list string) :
  NoDup (acc ++ l) -> fold_left setAdd l acc = acc ++ l.
Proof.
  revert acc. induction l as [|x l IH]; intros acc H; simpl.
  - now rewrite app_nil_r.
  - assert (Hx : ~ In x acc).
    { intros Hin. apply NoDup_remove_2 in H. apply H.
      apply in_or_app. now left. }
    unfold setAdd at 2. apply arrIncludes_not_In in Hx. rewrite Hx.
    rewrite IH; rewrite <- app_assoc; simpl; [reflexivity | assumption].
Qed.

Lemma fromSet_id (l : list string) : NoDup l -> fromSet l = l.
Proof. intros H. unfold fromSet. now rewrite fold_setAdd_fresh. Qed.

Lemma fromSet_snoc (l : list string) (x : string) :
  fromSet (l ++ [x]) = setAdd (fromSet l) x.
Proof. unfold fromSet. now rewrite fold_left_app. Qed.

End JSFacts.

(* ------------------------------------------------------------------ *)
(** ** Facts about topic detection *)

Section Detection.

Import JS EducationalAIAgent Scenario Invariant.

Lemma detectLoop_Some (lowerMsg : string) (table : list Topic) (t : string) :
  detectLoop lowerMsg table = Some t ->
  exists topic, In topic table /\ topicName topic = t
                /\ matches lowerMsg topic = true.
Proof.
  induction table as [|topic rest IH]; simpl; [discriminate|].
  destruct (matches lowerMsg topic) eqn:E.
  - intros [= <-]. exists topic. auto.
  - intros H. destruct (IH H) as (tp & Hin & Hn & Hm).
    exists tp. auto.
Qed.

Lemma detectLoop_head (lowerMsg : string) (table : list Topic) :
  detectLoop lowerMsg table
  = hd_error (map topicName (filter (matches lowerMsg) table)).
Proof.
  induction table as [|topic rest IH]; simpl; [reflexivity|].
  destruct (matches lowerMsg topic); simpl; [reflexivity | exact IH].
Qed.

Lemma detectTopic_in_table (m t : string) :
  detectTopic m = Some t ->
  exists topic, In topic aiTopics /\ topicName topic = t.
Proof.
  intros H. destruct (detectLoop_Some _ _ _ H) as (tp & Hin & Hn & _).
  exists tp. auto.
Qed.

Lemma detectTopic_truthy (m t : string) :
  detectTopic m = Some t -> truthy t = true.
Proof.
  intros H. destruct (detectTopic_in_table _ _ H) as (tp & Hin & <-).
  simpl in Hin.
  repeat (destruct Hin as [<- | Hin]; [reflexivity|]).
  contradiction.
Qed.

Lemma detectTopic_lower (m : string) :
  detectTopic (toLowerCase m) = detectTopic m.
Proof. unfold detectTopic. now rewrite toLowerCase_idem. Qed.

Lemma detected_at_most_one (m : string) : (List.length (detected m) <= 1)%nat.
Proof. unfold detected. destruct (detectTopic m); simpl; lia. Qed.

End Detection.

(* ------------------------------------------------------------------ *)
(** ** One call of [handleSend] in app.jsx, field by field *)

Section Turn.

Import JS EducationalAIAgent Scenario Invariant.

Lemma recordTopic_newTopic (closure : SessionData) (m : string) (st : State) :
  recordTopic closure m st =
  match newTopic closure m with
  | Some t =>
      setLearnerProfile
        (fun prev =>
           {| name := name prev; level := level prev;
              progress := Z.min 100 (progress prev + 15);
              topics := fromSet (topics prev ++ [t]) |})
        (setSessionData
           (fun prev =>
              {| questionsAsked := questionsAsked prev;
                 topicsExplored := topicsExplored prev ++ [t];
                 sessionTime := sessionTime prev |})
           st)
  | None => st
  end.
Proof.
  unfold recordTopic, newTopic.
  destruct (detectTopic m) as [t|] eqn:D; [|reflexivity].
  rewrite (detectTopic_truthy _ _ D).
  destruct (arrIncludes (topicsExplored closure) t); reflexivity.
Qed.

(** The two halves of [handleSend] make up the whole. *)
Lemma handleSend_cut (s : State) :
  handleSend s =
  match handleSend_begin s with
  | None => s
  | Some (userMessage, st) => handleSend_end userMessage st
  end.
Proof.
  unfold handleSend, handleSend_begin.
  destruct (negb (truthy (trim (input s))) || isLoading s)%bool; reflexivity.
Qed.

Lemma handleSend_begin_rejected (s : State) :
  accepted s = false -> handleSend_begin s = None.
Proof.
  unfold accepted, handleSend_begin.
  destruct (truthy (trim (input s))), (isLoading s); simpl;
    intros H; congruence.
Qed.

Lemma handleSend_rejected (s : State) : accepted s = false -> handleSend s = s.
Proof.
  intros H. rewrite handleSend_cut. now rewrite handleSend_begin_rejected.
Qed.

Lemma handleSend_begin_accepted (s : State) :
  accepted s = true ->
  exists st, handleSend_begin s = Some (trim (input s), st)
    /\ messages st
       = messages s ++ [ {| role := user; content := Typed (trim (input s)) |} ]
    /\ input st = "" /\ isLoading st = true
    /\ questionsAsked (sessionData st) = questionsAsked (sessionData s) + 1
    /\ sessionTime (sessionData st) = sessionTime (sessionData s)
    /\ topicsExplored (sessionData st)
       = match newTopic (sessionData s) (trim (input s)) with
         | Some t => topicsExplored (sessionData s) ++ [t]
         | None => topicsExplored (sessionData s)
         end
    /\ learnerProfile st
       = match newTopic (sessionData s) (trim (input s)) with
         | Some t =>
             {| name := name (learnerProfile s);
                level := level (learnerProfile s);
                progress := Z.min 100 (progress (learnerProfile s) + 15);
                topics := fromSet (topics (learnerProfile s) ++ [t]) |}
         | None => learnerProfile s
         end.
Proof.
  unfold accepted, handleSend_begin. intros H.
  apply andb_true_iff in H as [Ht Hl]. apply negb_true_iff in Hl.
  rewrite Ht, Hl. simpl. eexists. split; [reflexivity|].
  rewrite recordTopic_newTopic.
  destruct (newTopic (sessionData s) (trim (input s)));
    simpl; repeat split; reflexivity.
Qed.

Lemma handleSend_end_fields (m : string) (st : State) :
  messages (handleSend_end m st)
  = messages st ++ [ {| role := assistant; content := Canned (chooseReply m) |} ]
  /\ isLoading (handleSend_end m st) = false
  /\ input (handleSend_end m st) = input st
  /\ learnerProfile (handleSend_end m st) = learnerProfile st
  /\ sessionData (handleSend_end m st) = sessionData st.
Proof. repeat split; reflexivity. Qed.

Lemma handleSend_profile (s : State) :
  learnerProfile (handleSend s) =
  if accepted s then
    match newTopic (sessionData s) (trim (input s)) with
    | Some t =>
        {| name := name (learnerProfile s);
           level := level (learnerProfile s);
           progress := Z.min 100 (progress (learnerProfile s) + 15);
           topics := fromSet (topics (learnerProfile s) ++ [t]) |}
    | None => learnerProfile s
    end
  else learnerProfile s.
Proof.
  destruct (accepted s) eqn:A.
  - destruct (handleSend_begin_accepted s A) as (st & E & _ & _ & _ & _ & _ & _ & P).
    rewrite handleSend_cut, E. simpl. exact P.
  - now rewrite handleSend_rejected.
Qed.

Lemma handleSend_explored (s : State) :
  topicsExplored (sessionData (handleSend s)) =
  if accepted s then
    match newTopic (sessionData s) (trim (input s)) with
    | Some t => topicsExplored (sessionData s) ++ [t]
    | None => topicsExplored (sessionData s)
    end
  else topicsExplored (sessionData s).
Proof.
  destruct (accepted s) eqn:A.
  - destruct (handleSend_begin_accepted s A) as (st & E & _ & _ & _ & _ & _ & T & _).
    rewrite handleSend_cut, E. simpl. exact T.
  - now rewrite handleSend_rejected.
Qed.

Lemma handleSend_messages (s : State) :
  messages (handleSend s) =
  if accepted s then
    messages s ++ [ {| role := user; content := Typed (trim (input s)) |};
                    {| role := assistant;
                       content := Canned (chooseReply (trim (input s))) |} ]
  else messages s.
Proof.
  destruct (accepted s) eqn:A.
  - destruct (handleSend_begin_accepted s A) as (st & E & M & _).
    rewrite handleSend_cut, E.
    destruct (handleSend_end_fields (trim (input s)) st) as (M' & _).
    rewrite M', M, <- app_assoc. reflexivity.
  - now rewrite handleSend_rejected.
Qed.

Lemma newTopic_fresh (closure : SessionData) (m t : string) :
  newTopic closure m = Some t -> ~ In t (topicsExplored closure).
Proof.
  unfold newTopic. destruct (detectTopic m) as [t'|]; [|discriminate].
  destruct (arrIncludes (topicsExplored closure) t') eqn:E; [discriminate|].
  intros [= <-]. now apply arrIncludes_not_In.
Qed.

Lemma NoDup_snoc (l : list string) (x : string) :
  NoDup l -> ~ In x l -> NoDup (l ++ [x]).
Proof.
  intros H Hx. apply NoDup_rev in H. rewrite <- (rev_involutive (l ++ [x])).
  apply NoDup_rev. rewrite rev_app_distr. simpl. constructor.
  - now rewrite <- in_rev.
  - assumption.
Qed.

Lemma handleSend_wellFormed (s : State) : wellFormed s -> wellFormed (handleSend s).
Proof.
  intros [Hl Hu He Ht]. constructor.
  - rewrite handleSend_profile.
    destruct (accepted s), (newTopic (sessionData s) (trim (input s))); simpl; lia.
  - rewrite handleSend_profile.
    destruct (accepted s), (newTopic (sessionData s) (trim (input s))); simpl; lia.
  - rewrite handleSend_explored.
    destruct (accepted s); [|assumption].
    destruct (newTopic (sessionData s) (trim (input s))) as [t|] eqn:N; [|assumption].
    apply NoDup_snoc; [assumption | now apply newTopic_fresh with (m := trim (input s))].
  - rewrite handleSend_profile.
    destruct (accepted s); [|assumption].
    destruct (newTopic (sessionData s) (trim (input s))); simpl; [|assumption].
    apply fromSet_NoDup.
Qed.

Lemma turn_wellFormed (s : State) (text : string) :
  wellFormed s -> wellFormed (turn s text).
Proof.
  intros [Hl Hu He Ht]. apply handleSend_wellFormed. constructor; assumption.
Qed.

Lemma turns_wellFormed (texts : list string) (s : State) :
  wellFormed s -> wellFormed (turns s texts).
Proof.
  revert s. induction texts as [|text texts IH]; intros s H; simpl; [assumption|].
  apply IH, turn_wellFormed, H.
Qed.

Lemma initialState_wellFormed : wellFormed initialState.
Proof. constructor; simpl; try lia; constructor. Qed.

Lemma turns_snoc (s : State) (texts : list string) (text : string) :
  turns s (texts ++ [text]) = turn (turns s texts) text.
Proof. unfold turns. now rewrite fold_left_app. Qed.

End Turn.

(* ------------------------------------------------------------------ *)
(** ** The mounted component as a transition system *)

Section Machine.

Import JS EducationalAIAgent Scenario Invariant.

Lemma handleSend_begin_Some (s : State) (m : string) (st : State) :
  handleSend_begin s = Some (m, st) ->
  accepted s = true /\ m = trim (input s) /\ isLoading st = true
  /\ learnerProfile st = learnerProfile (handleSend s)
  /\ sessionData st = sessionData (handleSend s).
Proof.
  intros H. destruct (accepted s) eqn:A.
  - destruct (handleSend_begin_accepted s A) as (st' & E & _ & _ & L & _).
    rewrite H in E. injection E as -> ->.
    rewrite handleSend_cut, H. repeat split; assumption.
  - rewrite (handleSend_begin_rejected s A) in H. discriminate.
Qed.

Lemma wellFormed_ext (s s' : State) :
  learnerProfile s' = learnerProfile s ->
  sessionData s' = sessionData s ->
  wellFormed s -> wellFormed s'.
Proof.
  intros P S [Hl Hu He Ht]. constructor; rewrite ?P, ?S; assumption.
Qed.

Lemma step_consistent (c : Config) (e : Event) :
  consistent c -> consistent (step c e).
Proof.
  intros [W L]. destruct e as [text| | |]; simpl.
  - split; [|exact L].
    apply (wellFormed_ext (ui c)); [reflexivity | reflexivity | assumption].
  - destruct (handleSend_begin (ui c)) as [[m st]|] eqn:B; [|now split].
    destruct (handleSend_begin_Some _ _ _ B) as (_ & _ & Ld & P & S).
    split; [|exact Ld].
    apply (wellFormed_ext (handleSend (ui c))); try assumption.
    now apply handleSend_wellFormed.
  - split; [|exact L]. destruct W as [Hl Hu He Ht]. constructor; assumption.
  - destruct (pending c) as [m|] eqn:Pd.
    + split; [|reflexivity].
      apply (wellFormed_ext (ui c)); [reflexivity | reflexivity | assumption].
    + split; assumption.
Qed.

Lemma run_consistent (evs : list Event) (c : Config) :
  consistent c -> consistent (run c evs).
Proof.
  revert c. induction evs as [|e evs IH]; intros c H; simpl; [assumption|].
  apply IH, step_consistent, H.
Qed.

Lemma initialConfig_consistent : consistent initialConfig.
Proof. split; [apply initialState_wellFormed | reflexivity]. Qed.

(** A complete turn is three events of the transition system. *)
Lemma turn_as_run (s : State) (text : string) :
  ui (run {| ui := s; pending := None |} [EvInput text; EvSend; EvReply])
  = turn s text.
Proof.
  unfold turn. rewrite handleSend_cut. simpl.
  destruct (handleSend_begin (setInput text s)) as [[m st]|]; reflexivity.
Qed.

(** While a call is suspended, pressing Send changes nothing. *)
Lemma step_send_busy (c : Config) :
  consistent c -> busy c = true -> step c EvSend = c.
Proof.
  intros [_ L] B. simpl. rewrite handleSend_begin_rejected; [reflexivity|].
  unfold accepted. rewrite L, B. apply andb_false_r.
Qed.

End Machine.

(* ------------------------------------------------------------------ *)
(** ** Progress of the learner profile (app.jsx) *)

Section Progress.

Import JS EducationalAIAgent Scenario Invariant.

Lemma turn_progress (s : State) (text : string) :
  progress (learnerProfile (turn s text)) = progress (learnerProfile s)
  \/ progress (learnerProfile (turn s text))
     = Z.min 100 (progress (learnerProfile s) + 15).
Proof.
  unfold turn. rewrite handleSend_profile.
  destruct (accepted (setInput text s)); [|now left].
  destruct (newTopic _ _); [now right | now left].
Qed.

Lemma turn_progress_upper (s : State) (text : string) :
  progress (learnerProfile s) <= 100 ->
  progress (learnerProfile (turn s text)) <= 100.
Proof. destruct (turn_progress s text) as [E|E]; rewrite E; lia. Qed.

Lemma turn_progress_ge (s : State) (text : string) :
  progress (learnerProfile s) <= 100 ->
  progress (learnerProfile s) <= progress (learnerProfile (turn s text)).
Proof. destruct (turn_progress s text) as [E|E]; rewrite E; lia. Qed.

Lemma turns_progress_ge (texts : list string) (s : State) :
  progress (learnerProfile s) <= 100 ->
  progress (learnerProfile s) <= progress (learnerProfile (turns s texts))
  /\ progress (learnerProfile (turns s texts)) <= 100.
Proof.
  revert s. induction texts as [|text texts IH]; intros s H; simpl; [lia|].
  pose proof (turn_progress_ge s text H) as G.
  pose proof (turn_progress_upper s text H) as U.
  destruct (IH (turn s text) U) as [G' U']. fold (turns (turn s text) texts) in *.
  lia.
Qed.

(** C1: in one turn the profile's progress grows by at most the fixed
    increment 15, whatever the message is and however many table entries
    its keywords match. *)
Theorem progress_grows_by_at_most_15 (s : State) (text : string) :
  progress (learnerProfile (turn s text)) - progress (learnerProfile s) <= 15.
Proof.
  destruct (turn_progress s text) as [E|E]; rewrite E; lia.
Qed.

(** C2: along any sequence of consecutive turns of a learner whose
    progress starts within the scale, progress never decreases: its value
    after a longer run of turns is at least its value after any shorter
    one, in particular after each turn at least the value before it. *)
Theorem progress_never_decreases (s : State) (earlier later : list string) :
  progress (learnerProfile s) <= 100 ->
  progress (learnerProfile (turns s earlier))
  <= progress (learnerProfile (turns s (earlier ++ later))).
Proof.
  intros H. unfold turns. rewrite fold_left_app.
  apply turns_progress_ge. now apply (turns_progress_ge earlier s).
Qed.

Lemma progress_never_decreases_witness :
  progress (learnerProfile initialState) <= 100
  /\ progress (learnerProfile (turns initialState [firstMessage]))
     <= progress (learnerProfile
                    (turns initialState
                       ([firstMessage] ++ [followUp; "How does NLP work?"]))).
Proof.
  split; [simpl; lia|].
  apply (progress_never_decreases initialState [firstMessage]
           [followUp; "How does NLP work?"]).
  simpl; lia.
Defined.

(** C6: from a profile whose progress lies in [0,100], the progress after
    a turn lies in [0,100] again; when a new topic is detected and the
    increment would exceed 100, progress is set to 100 and the turn
    completes as any other: both messages are appended and the loading
    flag is cleared. *)
Theorem progress_stays_in_range (s : State) (text t : string) :
  0 <= progress (learnerProfile s) <= 100 ->
  0 <= progress (learnerProfile (turn s text)) <= 100
  /\ (truthy (trim text) = true -> isLoading s = false ->
      detectTopic (trim text) = Some t ->
      ~ In t (topicsExplored (sessionData s)) ->
      100 < progress (learnerProfile s) + 15 ->
      progress (learnerProfile (turn s text)) = 100
      /\ messages (turn s text)
         = messages s ++ [ {| role := user; content := Typed (trim text) |};
                           {| role := assistant;
                              content := Canned (chooseReply (trim text)) |} ]
      /\ isLoading (turn s text) = false).
Proof.
  intros [Hl Hu]. split.
  - destruct (turn_progress s text) as [E|E]; rewrite E; lia.
  - intros Ht Hld D Hfresh Hover.
    assert (A : accepted (setInput text s) = true).
    { unfold accepted. simpl. now rewrite Ht, Hld. }
    assert (N : newTopic (sessionData s) (trim text) = Some t).
    { unfold newTopic. rewrite D.
      apply arrIncludes_not_In in Hfresh. now rewrite Hfresh. }
    unfold turn. rewrite handleSend_profile, handleSend_messages, A.
    simpl. rewrite N. simpl. repeat split; [lia|].
    rewrite handleSend_cut.
    destruct (handleSend_begin_accepted _ A) as (st & E & _). now rewrite E.
Qed.

Lemma progress_stays_in_range_witness :
  0 <= progress (learnerProfile (turn nearlyDone firstMessage)) <= 100
  /\ progress (learnerProfile (turn nearlyDone firstMessage)) = 100.
Proof.
  destruct (progress_stays_in_range nearlyDone firstMessage machineLearning)
    as [R C]; [simpl; lia|].
  split; [exact R|].
  apply C.
  - reflexivity.
  - reflexivity.
  - reflexivity.
  - simpl. intros F. exact F.
  - simpl. lia.
Defined.

End Progress.

(* ------------------------------------------------------------------ *)
(** ** The topic lists (app.jsx) *)

Section Topics.

Import JS EducationalAIAgent Scenario Invariant.

Lemma turn_explored (s : State) (text : string) :
  topicsExplored (sessionData (turn s text)) = topicsExplored (sessionData s)
  \/ exists t, ~ In t (topicsExplored (sessionData s))
               /\ topicsExplored (sessionData (turn s text))
                  = topicsExplored (sessionData s) ++ [t].
Proof.
  unfold turn. rewrite handleSend_explored.
  destruct (accepted (setInput text s)); [|now left].
  cbn [sessionData input setInput].
  destruct (newTopic (sessionData s) (trim text)) as [t|] eqn:N; [|now left].
  right. exists t. split; [|reflexivity].
  now apply newTopic_fresh with (m := trim text).
Qed.

Lemma turn_topics (s : State) (text : string) :
  NoDup (topics (learnerProfile s)) ->
  topics (learnerProfile (turn s text)) = topics (learnerProfile s)
  \/ exists t, ~ In t (topics (learnerProfile s))
               /\ topics (learnerProfile (turn s text))
                  = topics (learnerProfile s) ++ [t].
Proof.
  intros H. unfold turn. rewrite handleSend_profile.
  destruct (accepted (setInput text s)); [|now left].
  cbn [sessionData learnerProfile input setInput].
  destruct (newTopic (sessionData s) (trim text)) as [t|]; [|now left].
  cbn [topics]. rewrite fromSet_snoc, (fromSet_id _ H). unfold setAdd.
  destruct (arrIncludes (topics (learnerProfile s)) t) eqn:E; [now left|].
  right. exists t. split; [|reflexivity].
  now apply arrIncludes_not_In.
Qed.

(** C10: after any sequence of turns from the initial state, and one more
    turn, the session's topicsExplored and the profile's topics hold no
    entry twice; that turn leaves each list as it was or appends one
    topic that the list did not hold. *)
Theorem topic_lists_hold_no_duplicates (texts : list string) (text : string) :
  let s := turns initialState texts in
  let s' := turn s text in
  NoDup (topicsExplored (sessionData s'))
  /\ NoDup (topics (learnerProfile s'))
  /\ (topicsExplored (sessionData s') = topicsExplored (sessionData s)
      \/ exists t, ~ In t (topicsExplored (sessionData s))
                   /\ topicsExplored (sessionData s')
                      = topicsExplored (sessionData s) ++ [t])
  /\ (topics (learnerProfile s') = topics (learnerProfile s)
      \/ exists t, ~ In t (topics (learnerProfile s))
                   /\ topics (learnerProfile s')
                      = topics (learnerProfile s) ++ [t]).
Proof.
  intros s s'.
  assert (W : wellFormed s) by apply turns_wellFormed, initialState_wellFormed.
  assert (W' : wellFormed s') by apply turn_wellFormed, W.
  repeat split.
  - apply W'.
  - apply W'.
  - apply turn_explored.
  - apply turn_topics, W.
Qed.

(** Every configuration the mounted component can reach keeps the two
    lists free of duplicates and the progress on the scale, also while a
    reply is pending. *)
Lemma reachable_consistent (evs : list Event) :
  consistent (run initialConfig evs).
Proof. apply run_consistent, initialConfig_consistent. Qed.

(** C8: topic detection is a function of the lower-cased message alone:
    a message and its lower-case form are detected alike, and so are any
    two messages that differ only in letter case; the result is always
    either nothing or the name of one entry of the topic table. *)
Theorem detection_ignores_case (t t' : string) :
  detectTopic t = detectTopic (toLowerCase t)
  /\ (toLowerCase t' = toLowerCase t -> detectTopic t' = detectTopic t)
  /\ (detectTopic t = None
      \/ exists topic, In topic aiTopics /\ detectTopic t = Some (topicName topic)).
Proof.
  repeat split.
  - symmetry. apply detectTopic_lower.
  - intros E. unfold detectTopic. now rewrite E.
  - destruct (detectTopic t) as [n|] eqn:D; [right | now left].
    destruct (detectTopic_in_table _ _ D) as (topic & Hin & <-).
    exists topic. split; [assumption | reflexivity].
Qed.

Lemma detection_ignores_case_witness :
  detectTopic "What is MACHINE Learning?"
  = detectTopic (toLowerCase "What is MACHINE Learning?")
  /\ detectTopic "WHAT IS machine learning?" = detectTopic "What is MACHINE Learning?".
Proof.
  destruct (detection_ignores_case "What is MACHINE Learning?"
              "WHAT IS machine learning?") as (L & V & _).
  split; [exact L|]. apply V. reflexivity.
Defined.

(** C3, as the code has it: detection yields at most one topic for every
    message, the first table entry with a matching keyword.  The
    follow-up message matches two entries, but only Machine Learning
    Basics is detected; the session has explored it already, so progress
    stays at 15 and topicsExplored still holds that topic alone. *)
Theorem follow_up_detects_first_match_only (m : string) :
  (List.length (detected m) <= 1)%nat
  /\ detectTopic m = hd_error (matching m)
  /\ matching followUp = [machineLearning; neuralNetworks]
  /\ detected followUp = [machineLearning]
  /\ progress (learnerProfile afterFirst) = 15
  /\ progress (learnerProfile afterFollowUp) = 15
  /\ topicsExplored (sessionData afterFollowUp) = [machineLearning].
Proof.
  split; [apply detected_at_most_one|].
  split; [apply detectLoop_head|].
  repeat split; vm_compute; reflexivity.
Qed.

(** C3 as stated fails: after the follow-up message it is not the case
    that two topics were detected, progress is 30 and both topics are in
    topicsExplored. *)
Lemma follow_up_not_two_topics :
  ~ (List.length (detected followUp) = 2%nat
     /\ progress (learnerProfile afterFollowUp) = 30
     /\ In machineLearning (topicsExplored (sessionData afterFollowUp))
     /\ In neuralNetworks (topicsExplored (sessionData afterFollowUp))).
Proof.
  intros (L & _). vm_compute in L. discriminate.
Qed.

(** C4, as the code has it: a message that passes the guard adds exactly
    two entries at the end of the message list, the learner's trimmed
    text and the reply; every entry stored before stays, in its place. *)
Theorem turn_appends_two_messages (s : State) (text : string) :
  truthy (trim text) = true -> isLoading s = false ->
  messages (turn s text)
  = messages s ++ [ {| role := user; content := Typed (trim text) |};
                    {| role := assistant;
                       content := Canned (chooseReply (trim text)) |} ].
Proof.
  intros Ht Hl. unfold turn. rewrite handleSend_messages.
  unfold accepted. cbn [input isLoading setInput messages].
  now rewrite Ht, Hl.
Qed.

Lemma turn_appends_two_messages_witness :
  messages (turn initialState "hi")
  = messages initialState
    ++ [ {| role := user; content := Typed (trim "hi") |};
         {| role := assistant; content := Canned (chooseReply (trim "hi")) |} ].
Proof.
  apply (turn_appends_two_messages initialState "hi"); reflexivity.
Defined.

(** C4 as stated fails: after twenty-five questions the list holds 51
    messages, more than the window of 50. *)
Lemma long_chat_exceeds_window :
  ~ (List.length (messages longChat) <= 50)%nat.
Proof.
  vm_compute. intros H. repeat (apply le_S_n in H). inversion H.
Qed.

(** The greeting of the first render is still at the head of that list. *)
Lemma long_chat_keeps_greeting :
  hd_error (messages longChat)
  = Some {| role := assistant; content := Canned Greeting |}.
Proof. vm_compute. reflexivity. Qed.

End Topics.

(* ------------------------------------------------------------------ *)
(** ** The guard of [handleSend] *)

Section Guard.

Import JS.

Lemma trimStart_blank (s : string) :
  whitespaceOnly s = true -> trimStart s = "".
Proof.
  induction s as [|c r IH]; simpl; [reflexivity|].
  destruct (isSpace c); simpl; [exact IH | discriminate].
Qed.

Lemma trimStart_nonblank (s : string) :
  whitespaceOnly s = false ->
  exists c r, trimStart s = String c r /\ isSpace c = false.
Proof.
  induction s as [|c r IH]; simpl; [discriminate|].
  destruct (isSpace c) eqn:E; simpl.
  - exact IH.
  - intros _. exists c, r. split; [reflexivity | exact E].
Qed.

Lemma trimEnd_keeps_text (c : ascii) (r : string) :
  isSpace c = false -> truthy (trimEnd (String c r)) = true.
Proof.
  intros E. simpl. rewrite E. destruct (trimEnd r); reflexivity.
Qed.

(** [!input.trim()] holds exactly of the empty and the white-space-only
    inputs. *)
Lemma trim_falsy (s : string) : truthy (trim s) = negb (whitespaceOnly s).
Proof.
  unfold trim. destruct (whitespaceOnly s) eqn:W.
  - now rewrite trimStart_blank.
  - destruct (trimStart_nonblank s W) as (c & r & -> & E).
    now apply trimEnd_keeps_text.
Qed.

Lemma app_begin_rejected (a : App.State) :
  whitespaceOnly (App.input a) = true \/ App.isLoading a = true ->
  App.handleSend_begin a = None.
Proof.
  intros H. unfold App.handleSend_begin. rewrite trim_falsy.
  destruct H as [-> | ->]; [reflexivity | now rewrite orb_true_r].
Qed.

Lemma agent_begin_rejected (s : EducationalAIAgent.State) :
  whitespaceOnly (EducationalAIAgent.input s) = true
  \/ EducationalAIAgent.isLoading s = true ->
  EducationalAIAgent.handleSend_begin s = None.
Proof.
  intros H. apply handleSend_begin_rejected.
  unfold Invariant.accepted. rewrite trim_falsy.
  destruct H as [-> | ->]; [reflexivity | apply andb_false_r].
Qed.

(** C9: when the input is empty or white space only, or a turn is in
    flight, [handleSend] returns at its guard in both components: the
    whole state is as before, so no message is appended, questionsAsked
    is not incremented, and profile and session are untouched. *)
Theorem blank_or_busy_send_changes_nothing
    (s : EducationalAIAgent.State) (p : option string)
    (a : App.State) (o : App.Outcome) :
  whitespaceOnly (EducationalAIAgent.input s) = true
  \/ EducationalAIAgent.isLoading s = true ->
  whitespaceOnly (App.input a) = true \/ App.isLoading a = true ->
  EducationalAIAgent.handleSend s = s
  /\ EducationalAIAgent.step {| EducationalAIAgent.ui := s;
                                EducationalAIAgent.pending := p |}
       EducationalAIAgent.EvSend
     = {| EducationalAIAgent.ui := s; EducationalAIAgent.pending := p |}
  /\ App.handleSend o a = a.
Proof.
  intros Hs Ha. repeat split.
  - rewrite handleSend_cut. now rewrite agent_begin_rejected.
  - simpl. now rewrite agent_begin_rejected.
  - unfold App.handleSend. now rewrite app_begin_rejected.
Qed.

Lemma blank_or_busy_send_changes_nothing_witness :
  (EducationalAIAgent.handleSend
     (EducationalAIAgent.setInput "   " EducationalAIAgent.initialState)
   = EducationalAIAgent.setInput "   " EducationalAIAgent.initialState
   /\ App.handleSend App.Rejected (App.setInput "" App.initialState)
      = App.setInput "" App.initialState)
  /\ (EducationalAIAgent.handleSend Scenario.inFlight = Scenario.inFlight
      /\ App.handleSend App.NotOk Scenario.appInFlight = Scenario.appInFlight).
Proof.
  split.
  - destruct (blank_or_busy_send_changes_nothing
                (EducationalAIAgent.setInput "   " EducationalAIAgent.initialState)
                None (App.setInput "" App.initialState) App.Rejected)
      as (A & _ & B); [left; reflexivity | left; reflexivity |].
    split; [exact A | exact B].
  - destruct (blank_or_busy_send_changes_nothing
                Scenario.inFlight (Some Scenario.firstMessage)
                Scenario.appInFlight App.NotOk)
      as (A & _ & B); [right; reflexivity | right; reflexivity |].
    split; [exact A | exact B].
Defined.

End Guard.

(* ------------------------------------------------------------------ *)
(** ** A failed request in [App] *)

Section Fallback.

Import JS App.

Lemma app_begin_accepted (s : State) :
  truthy (trim (input s)) = true -> isLoading s = false ->
  exists st, handleSend_begin s = Some (trim (input s), st)
    /\ messages st
       = messages s ++ [ {| role := user; content := trim (input s);
                            topics_of := None |} ]
    /\ learnerProfile st = learnerProfile s
    /\ topicsExplored (sessionData st) = topicsExplored (sessionData s)
    /\ questionsAsked (sessionData st) = questionsAsked (sessionData s) + 1.
Proof.
  intros Ht Hl. unfold handleSend_begin. rewrite Ht, Hl. simpl.
  eexists. split; [reflexivity|]. repeat split.
Qed.

(** C7: when the request of a turn fails ([fetch] rejects or the status
    is not ok), the learner gets the static fallback reply, the learner
    profile (level, progress, topics) is exactly as before, and the
    conversation holds the learner's own message followed by that
    fallback and nothing from the server; the loading flag is cleared. *)
Theorem failed_request_falls_back (s : State) (o : Outcome) :
  failed o = true ->
  truthy (trim (input s)) = true -> isLoading s = false ->
  messages (handleSend o s)
  = messages s ++ [ {| role := user; content := trim (input s); topics_of := None |};
                    {| role := assistant; content := fallbackReply;
                       topics_of := None |} ]
  /\ learnerProfile (handleSend o s) = learnerProfile s
  /\ topicsExplored (sessionData (handleSend o s)) = topicsExplored (sessionData s)
  /\ isLoading (handleSend o s) = false.
Proof.
  intros F Ht Hl.
  destruct (app_begin_accepted s Ht Hl) as (st & E & M & P & T & _).
  unfold handleSend. rewrite E.
  destruct o as [| |data]; [| |discriminate];
    unfold handleSend_end; cbn [messages learnerProfile sessionData isLoading
                                setMessages setIsLoading];
    rewrite M, <- app_assoc; repeat split; assumption.
Qed.

Lemma failed_request_falls_back_witness :
  learnerProfile (handleSend NotOk (setInput "What is machine learning?" initialState))
  = learnerProfile (setInput "What is machine learning?" initialState).
Proof.
  apply (failed_request_falls_back
           (setInput "What is machine learning?" initialState) NotOk);
    reflexivity.
Defined.

End Fallback.

(* ------------------------------------------------------------------ *)
(** ** The first question of a new learner *)

Section FirstQuestion.

Import JS EducationalAIAgent Scenario.

Lemma fold_setAdd_In (x : string) (l acc : list string) :
  In x (fold_left setAdd l acc) <-> In x acc \/ In x l.
Proof.
  revert acc. induction l as [|y l IH]; intros acc; simpl.
  - tauto.
  - rewrite IH. unfold setAdd.
    destruct (arrIncludes acc y) eqn:E.
    + apply arrIncludes_In in E. split; [tauto|].
      intros [H | [<- | H]]; tauto.
    + rewrite in_app_iff. simpl. tauto.
Qed.

Lemma fromSet_In (x : string) (l : list string) : In x (fromSet l) <-> In x l.
Proof. unfold fromSet. rewrite fold_setAdd_In. simpl. tauto. Qed.

Lemma record_entry (g : Backend.LearningGraph) (day : string)
    (touched : list string) (delta snapshot : Z) :
  exists e,
    Backend.entryOf (Backend.record g day touched delta snapshot) day = Some e
    /\ Backend.progressSnapshot e = snapshot
    /\ forall t, In t touched -> In t (Backend.topicsTouched e).
Proof.
  unfold Backend.entryOf.
  induction g as [|e g IH]; simpl.
  - rewrite String.eqb_refl. eexists. split; [reflexivity|].
    split; [reflexivity|]. intros t H. simpl. now apply fromSet_In.
  - destruct (String.eqb (Backend.date e) day) eqn:E; simpl.
    + rewrite String.eqb_refl. eexists. split; [reflexivity|].
      split; [reflexivity|]. intros t H. simpl.
      apply fromSet_In, in_or_app. now right.
    + rewrite E. exact IH.
Qed.

(** C5: a learner with the empty profile (progress 0, no topics) sends
    "What is machine learning?".  The machine-learning topic is detected,
    progress becomes exactly 15 and the topic is recorded in the profile
    and the session; committed to the learner's durable record, the topic
    enters topicMastery with mastery 0 and the learning graph's entry of
    the day, whatever the graph held before, lists the topic and carries
    the progress 15. *)
Theorem first_question_reaches_15 (today : string) (g : Backend.LearningGraph) :
  progress (learnerProfile initialState) = 0
  /\ topics (learnerProfile initialState) = []
  /\ detected firstMessage = [machineLearning]
  /\ progress (learnerProfile afterFirst) = 15
  /\ topics (learnerProfile afterFirst) = [machineLearning]
  /\ topicsExplored (sessionData afterFirst) = [machineLearning]
  /\ fst (Backend.commit [] g today (detected firstMessage)
            (progress (learnerProfile afterFirst)))
     = [(machineLearning, 0%Q)]
  /\ exists e,
       Backend.entryOf
         (snd (Backend.commit [] g today (detected firstMessage)
                 (progress (learnerProfile afterFirst)))) today = Some e
       /\ Backend.progressSnapshot e = 15
       /\ In machineLearning (Backend.topicsTouched e).
Proof.
  do 7 (split; [vm_compute; reflexivity|]).
  unfold Backend.commit. cbn [snd].
  destruct (record_entry g today (detected firstMessage) 1
              (progress (learnerProfile afterFirst))) as (e & E & S & T).
  exists e. split; [exact E|]. split; [exact S|].
  apply T. vm_compute. now left.
Qed.

End FirstQuestion.

(* ------------------------------------------------------------------ *)
(** ** Counters of the reachable configurations (app.jsx) *)

Section Reachable.

Import JS EducationalAIAgent Invariant Display.

Lemma tableNames_distinct : NoDup tableNames.
Proof.
  unfold tableNames. simpl.
  repeat (constructor; [simpl; intuition discriminate|]). constructor.
Qed.

Lemma newTopic_known (closure : SessionData) (m t : string) :
  newTopic closure m = Some t -> In t tableNames.
Proof.
  unfold newTopic. destruct (detectTopic m) as [t'|] eqn:D; [|discriminate].
  destruct (arrIncludes (topicsExplored closure) t'); [discriminate|].
  intros [= <-]. destruct (detectTopic_in_table _ _ D) as (topic & Hin & <-).
  unfold tableNames. now apply in_map.
Qed.

Lemma explored_at_most_six (l : list string) :
  NoDup l -> incl l tableNames -> (List.length l <= 6)%nat.
Proof.
  intros N I. change 6%nat with (List.length tableNames).
  now apply NoDup_incl_length.
Qed.

Lemma begin_settled (c : Config) (m : string) (st : State) :
  consistent c -> settled c ->
  handleSend_begin (ui c) = Some (m, st) ->
  settled {| ui := st; pending := Some m |}.
Proof.
  intros [W L] [T K P C] B.
  destruct (handleSend_begin_Some _ _ _ B) as (A & -> & _).
  destruct (handleSend_begin_accepted _ A) as (st' & E & M & _ & _ & Q & _ & X & F).
  rewrite B in E. injection E as <-.
  assert (Hb : busy c = false).
  { rewrite <- L. unfold accepted in A. apply andb_true_iff in A as [_ A].
    now apply negb_true_iff. }
  rewrite Hb in C.
  destruct (newTopic (sessionData (ui c)) (trim (input (ui c)))) as [t|] eqn:N.
  - assert (Hfresh : ~ In t (topicsExplored (sessionData (ui c))))
      by now apply newTopic_fresh with (m := trim (input (ui c))).
    assert (Hnd : NoDup (topicsExplored (sessionData (ui c)) ++ [t]))
      by (apply NoDup_snoc; [apply W | exact Hfresh]).
    assert (Hincl : incl (topicsExplored (sessionData (ui c)) ++ [t]) tableNames).
    { apply incl_app; [exact K|]. intros x [<-|[]].
      now apply newTopic_known with (closure := sessionData (ui c))
                                    (m := trim (input (ui c))). }
    pose proof (explored_at_most_six _ Hnd Hincl) as Hlen.
    rewrite length_app in Hlen. simpl in Hlen.
    constructor; cbn [ui pending busy]; rewrite ?X, ?F, ?M, ?Q; cbn [topics progress].
    + rewrite T. now apply fromSet_id.
    + exact Hincl.
    + rewrite P, length_app. cbn [List.length]. lia.
    + rewrite length_app. cbn [List.length]. lia.
  - constructor; cbn [ui pending busy]; rewrite ?X, ?F, ?M, ?Q; try assumption.
    rewrite length_app. cbn [List.length]. lia.
Qed.

Lemma step_settled (c : Config) (e : Event) :
  consistent c -> settled c -> settled (step c e).
Proof.
  intros Hc Hs. destruct e as [text| | |]; simpl.
  - destruct Hs as [T K P C]. constructor; assumption.
  - destruct (handleSend_begin (ui c)) as [[m st]|] eqn:B; [|assumption].
    now apply begin_settled with (c := c).
  - destruct Hs as [T K P C]. constructor; assumption.
  - destruct (pending c) as [m|] eqn:Pd; [|assumption].
    destruct Hs as [T K P C]. unfold busy in C. rewrite Pd in C.
    constructor; cbn [ui pending busy]; try assumption.
    destruct (handleSend_end_fields m (ui c)) as (M & _ & _ & _ & S).
    rewrite M, S, length_app. cbn [List.length]. lia.
Qed.

Lemma run_settled (evs : list Event) (c : Config) :
  consistent c -> settled c -> consistent (run c evs) /\ settled (run c evs).
Proof.
  revert c. induction evs as [|e evs IH]; intros c Hc Hs; simpl; [now split|].
  apply IH; [now apply step_consistent | now apply step_settled].
Qed.

Lemma initialConfig_settled : settled initialConfig.
Proof.
  constructor; simpl; try reflexivity. intros x [].
Qed.

Lemma reachable_settled (evs : list Event) : settled (run initialConfig evs).
Proof.
  apply run_settled; [apply initialConfig_consistent | apply initialConfig_settled].
Qed.

End Reachable.

(* ------------------------------------------------------------------ *)
(** ** What the header and the profile card of app.jsx can show *)

Section Counters.

Import JS EducationalAIAgent Invariant Display.

(** X1: in every configuration the component can reach, progress is
    exactly 15 times the number of topics explored; the table has six
    topics, so progress never exceeds 90 and the cap of 100 is never
    met. *)
Theorem progress_is_15_per_topic (evs : list Event) :
  let s := ui (run initialConfig evs) in
  progress (learnerProfile s)
  = 15 * Z.of_nat (List.length (topicsExplored (sessionData s)))
  /\ (List.length (topicsExplored (sessionData s)) <= 6)%nat
  /\ progress (learnerProfile s) <= 90.
Proof.
  intros s. destruct (reachable_settled evs) as [T K P C].
  destruct (reachable_consistent evs) as [W _].
  fold s in T, K, P, W.
  assert (H6 : (List.length (topicsExplored (sessionData s)) <= 6)%nat)
    by (apply explored_at_most_six; [apply W | exact K]).
  repeat split; [exact P | exact H6 | rewrite P; lia].
Qed.

(** X2: in every reachable configuration the profile's topics and the
    session's topicsExplored are the same list, and each entry is the
    name of an entry of the topic table. *)
Theorem profile_topics_mirror_session (evs : list Event) :
  let s := ui (run initialConfig evs) in
  topics (learnerProfile s) = topicsExplored (sessionData s)
  /\ Forall (fun t => exists topic, In topic aiTopics /\ topicName topic = t)
       (topics (learnerProfile s)).
Proof.
  intros s. destruct (reachable_settled evs) as [T K _ _]. fold s in T, K.
  split; [exact T|]. rewrite T. apply Forall_forall. intros t Ht.
  apply K in Ht. unfold tableNames in Ht. apply in_map_iff in Ht.
  destruct Ht as (topic & E & Hin). exists topic. now split.
Qed.

(** X3: in every reachable configuration the message list holds the
    greeting, one message per question asked and one reply per question
    answered: 2 * questionsAsked + 1 entries at rest, one fewer while the
    reply is pending. *)
Theorem messages_count_questions (evs : list Event) :
  let c := run initialConfig evs in
  Z.of_nat (List.length (messages (ui c)))
  = 2 * questionsAsked (sessionData (ui c))
    + (if isLoading (ui c) then 0 else 1).
Proof.
  intros c. destruct (reachable_settled evs) as [_ _ _ C].
  destruct (reachable_consistent evs) as [_ L]. fold c in C, L.
  rewrite L. exact C.
Qed.

Lemma step_sessionTime (c : Config) (e : Event) :
  sessionTime (sessionData (ui (step c e)))
  = sessionTime (sessionData (ui c)) + (if isTick e then 1 else 0).
Proof.
  destruct e as [text| | |]; simpl; try lia.
  - destruct (handleSend_begin (ui c)) as [[m st]|] eqn:B; [|lia].
    destruct (handleSend_begin_Some _ _ _ B) as (A & -> & _).
    destruct (handleSend_begin_accepted _ A) as (st' & E & _ & _ & _ & _ & S & _).
    rewrite B in E. injection E as <-. simpl. lia.
  - destruct (pending c); simpl; lia.
Qed.

(** X4: the session clock is moved by the one-second interval alone:
    after any events, sessionTime has grown by the number of times the
    interval fired, whatever was typed, sent or answered in between. *)
Theorem sessionTime_counts_ticks (c : Config) (evs : list Event) :
  sessionTime (sessionData (ui (run c evs)))
  = sessionTime (sessionData (ui c)) + Z.of_nat (ticks evs).
Proof.
  revert c. induction evs as [|e evs IH]; intros c; simpl.
  - unfold ticks. simpl. lia.
  - fold (run (step c e) evs). rewrite IH, step_sessionTime.
    unfold ticks. simpl. destruct (isTick e); simpl List.length; lia.
Qed.

(** X5: text typed while a reply is pending does not change that reply
    or any other state, and the arriving reply does not clear it. *)
Theorem typing_while_pending_keeps_reply (c : Config) (text : string) :
  ui (run c [EvSend; EvInput text; EvReply])
  = setInput text (ui (run c [EvSend; EvReply]))
  /\ pending (run c [EvSend; EvInput text; EvReply])
     = pending (run c [EvSend; EvReply]).
Proof.
  simpl. destruct (handleSend_begin (ui c)) as [[m st]|]; simpl.
  - split; reflexivity.
  - destruct (pending c) eqn:Pd; simpl; rewrite ?Pd; split; reflexivity.
Qed.

End Counters.

(* ------------------------------------------------------------------ *)
(** ** Detection against the reply cascade and the quick prompts *)

Section Replies.

Import JS EducationalAIAgent Invariant Scenario Display.

Lemma matches_in_matching (m : string) (topic : Topic) :
  In topic aiTopics -> matches (toLowerCase m) topic = true ->
  In (topicName topic) (matching m).
Proof.
  intros Hin Hm. unfold matching. apply in_map, filter_In. now split.
Qed.

Lemma matching_detected (m n : string) :
  In n (matching m) -> exists t, detectTopic m = Some t.
Proof.
  unfold detectTopic, matching. rewrite detectLoop_head.
  destruct (map topicName (filter (matches (toLowerCase m)) aiTopics)) as [|t l].
  - intros [].
  - intros _. now exists t.
Qed.

Lemma reply_entry_matches (m n : string) :
  replyTopic (chooseReply m) = Some n -> In n (matching m).
Proof.
  unfold chooseReply. set (l := toLowerCase m).
  pose (d := {| topicName := ""; keywords := [] |}).
  destruct (includes l "machine learning" || includes l "ml")%bool eqn:C1.
  { intros [= <-]. apply (matches_in_matching m (nth 0 aiTopics d)).
    - simpl. tauto.
    - fold l. cbn [nth aiTopics matches keywords existsb].
      apply orb_true_iff in C1 as [H|H]; rewrite H; cbn [orb];
        rewrite ?orb_true_r; reflexivity. }
  destruct (includes l "neural" || includes l "deep learning")%bool eqn:C2.
  { intros [= <-]. apply (matches_in_matching m (nth 1 aiTopics d)).
    - simpl. tauto.
    - fold l. cbn [nth aiTopics matches keywords existsb].
      apply orb_true_iff in C2 as [H|H]; rewrite H; cbn [orb];
        rewrite ?orb_true_r; reflexivity. }
  destruct (includes l "nlp" || includes l "language")%bool eqn:C3.
  { intros [= <-]. apply (matches_in_matching m (nth 2 aiTopics d)).
    - simpl. tauto.
    - fold l. cbn [nth aiTopics matches keywords existsb].
      apply orb_true_iff in C3 as [H|H]; rewrite H; cbn [orb];
        rewrite ?orb_true_r; reflexivity. }
  destruct (includes l "vision" || includes l "image")%bool eqn:C4.
  { intros [= <-]. apply (matches_in_matching m (nth 3 aiTopics d)).
    - simpl. tauto.
    - fold l. cbn [nth aiTopics matches keywords existsb].
      apply orb_true_iff in C4 as [H|H]; rewrite H; cbn [orb];
        rewrite ?orb_true_r; reflexivity. }
  destruct (includes l "ethics" || includes l "bias")%bool eqn:C5.
  { intros [= <-]. apply (matches_in_matching m (nth 4 aiTopics d)).
    - simpl. tauto.
    - fold l. cbn [nth aiTopics matches keywords existsb].
      apply orb_true_iff in C5 as [H|H]; rewrite H; cbn [orb];
        rewrite ?orb_true_r; reflexivity. }
  destruct (includes l "generative" || includes l "gpt" || includes l "llm")%bool eqn:C6.
  { intros [= <-]. apply (matches_in_matching m (nth 5 aiTopics d)).
    - simpl. tauto.
    - fold l. cbn [nth aiTopics matches keywords existsb].
      apply orb_true_iff in C6 as [H|H];
        [apply orb_true_iff in H as [H|H]|]; rewrite H; cbn [orb];
        rewrite ?orb_true_r; reflexivity. }
  destruct (includes l "start" || includes l "begin" || includes l "learn")%bool;
    discriminate.
Qed.

Lemma reply_ml_detected (m : string) :
  chooseReply m = AboutMachineLearning -> detectTopic m = Some machineLearning.
Proof.
  unfold chooseReply, detectTopic. set (l := toLowerCase m).
  pose (d := {| topicName := ""; keywords := [] |}).
  destruct (includes l "machine learning" || includes l "ml")%bool eqn:C1.
  - intros _.
    change (detectLoop l aiTopics)
      with (if matches l (nth 0 aiTopics d) then Some machineLearning
            else detectLoop l (tl aiTopics)).
    assert (M : matches l (nth 0 aiTopics d) = true).
    { cbn [nth aiTopics matches keywords existsb].
      apply orb_true_iff in C1 as [H|H]; rewrite H; cbn [orb];
        rewrite ?orb_true_r; reflexivity. }
    now rewrite M.
  - destruct (includes l "neural" || includes l "deep learning")%bool;
      [discriminate|].
    destruct (includes l "nlp" || includes l "language")%bool; [discriminate|].
    destruct (includes l "vision" || includes l "image")%bool; [discriminate|].
    destruct (includes l "ethics" || includes l "bias")%bool; [discriminate|].
    destruct (includes l "generative" || includes l "gpt" || includes l "llm")%bool;
      [discriminate|].
    destruct (includes l "start" || includes l "begin" || includes l "learn")%bool;
      discriminate.
Qed.

(** X6: the reply cascade never answers about a topic the detection
    table does not match: when the reply is about a topic, that topic's
    table entry matches the message and a topic is detected; when the
    reply is the one about machine learning, the topic detected is
    Machine Learning Basics. *)
Theorem reply_about_a_topic_is_detected (m n : string) :
  replyTopic (chooseReply m) = Some n ->
  In n (matching m)
  /\ (exists t, detectTopic m = Some t)
  /\ (chooseReply m = AboutMachineLearning -> detectTopic m = Some machineLearning).
Proof.
  intros R. pose proof (reply_entry_matches m n R) as Hin.
  split; [exact Hin|]. split; [now apply matching_detected with (n := n)|].
  apply reply_ml_detected.
Qed.

Lemma reply_about_a_topic_is_detected_witness :
  In neuralNetworks (matching "Explain Neural Networks")
  /\ exists t, detectTopic "Explain Neural Networks" = Some t.
Proof.
  destruct (reply_about_a_topic_is_detected "Explain Neural Networks"
              neuralNetworks) as (A & B & _); [reflexivity|].
  split; [exact A | exact B].
Defined.

Lemma prefix_lower (s k : string) :
  String.prefix k s = true ->
  String.prefix (toLowerCase k) (toLowerCase s) = true.
Proof.
  revert k. induction s as [|c s IH]; intros [|d k]; simpl; try easy.
  destruct (ascii_dec d c) as [->|]; [|discriminate].
  intros H. destruct (ascii_dec (lowerChar c) (lowerChar c)); [|contradiction].
  now apply IH.
Qed.

Lemma includes_lower (s k : string) :
  includes s k = true -> includes (toLowerCase s) (toLowerCase k) = true.
Proof.
  induction s as [|c s IH]; cbn [includes toLowerCase]; intros H.
  - apply orb_true_iff in H as [H|H]; [|discriminate].
    apply prefix_lower in H. cbn [toLowerCase] in H. now rewrite H.
  - apply orb_true_iff in H as [H|H].
    + apply prefix_lower in H. cbn [toLowerCase] in H. now rewrite H.
    + rewrite (IH H). apply orb_true_r.
Qed.

(** X7: a keyword of the table is found in whatever letter case the
    learner types it: when the message contains a piece of text that
    lower-cases to a keyword of some topic, that topic's entry matches
    and a topic is detected. *)
Theorem keyword_in_any_case_is_detected (m typed : string) (topic : Topic) :
  In topic aiTopics ->
  In (toLowerCase typed) (keywords topic) ->
  includes m typed = true ->
  In (topicName topic) (matching m) /\ exists t, detectTopic m = Some t.
Proof.
  intros Ht Hk Hi.
  assert (Hin : In (topicName topic) (matching m)).
  { apply matches_in_matching; [exact Ht|].
    unfold matches. apply existsb_exists.
    exists (toLowerCase typed). split; [exact Hk | now apply includes_lower]. }
  split; [exact Hin | now apply matching_detected with (n := topicName topic)].
Qed.

Lemma keyword_in_any_case_is_detected_witness :
  In neuralNetworks (matching "I love DEEP Learning")
  /\ exists t, detectTopic "I love DEEP Learning" = Some t.
Proof.
  apply (keyword_in_any_case_is_detected "I love DEEP Learning" "DEEP Learning"
           (nth 1 aiTopics {| topicName := ""; keywords := [] |})).
  - simpl. tauto.
  - simpl. tauto.
  - reflexivity.
Defined.

Lemma turn_explores (s : State) (text t : string) :
  truthy (trim text) = true -> isLoading s = false ->
  detectTopic (trim text) = Some t ->
  In t (topicsExplored (sessionData (turn s text))).
Proof.
  intros Ht Hl D. unfold turn. rewrite handleSend_explored.
  unfold accepted, newTopic. cbn [input isLoading sessionData setInput].
  rewrite Ht, Hl, D. cbn [andb negb].
  destruct (arrIncludes (topicsExplored (sessionData s)) t) eqn:E.
  - now apply arrIncludes_In.
  - apply in_or_app. right. now left.
Qed.

(** X8: every quick prompt works from any state at rest: sent as it
    stands, it passes the guard, a topic is detected, the reply is the
    one about that topic, and the topic is among the topics explored
    afterwards. *)
Theorem quick_prompts_reach_their_topic (s : State) (prompt : string) :
  In prompt quickPrompts -> isLoading s = false ->
  exists t,
    detectTopic prompt = Some t
    /\ replyTopic (chooseReply prompt) = Some t
    /\ In t (topicsExplored (sessionData (turn s prompt)))
    /\ messages (turn s prompt)
       = messages s ++ [ {| role := user; content := Typed prompt |};
                         {| role := assistant;
                            content := Canned (chooseReply prompt) |} ].
Proof.
  intros Hin Hl.
  assert (Htrim : trim prompt = prompt /\ truthy (trim prompt) = true
                  /\ exists t, detectTopic prompt = Some t
                               /\ replyTopic (chooseReply prompt) = Some t).
  { simpl in Hin.
    repeat (destruct Hin as [<- | Hin];
            [repeat split; eexists; split; vm_compute; reflexivity|]).
    contradiction. }
  destruct Htrim as (Etrim & Ht & t & D & R).
  exists t. split; [exact D|]. split; [exact R|]. split.
  - apply turn_explores; [exact Ht | exact Hl | now rewrite Etrim].
  - unfold turn. rewrite handleSend_messages.
    unfold accepted. cbn [input isLoading setInput messages].
    now rewrite Ht, Hl, Etrim.
Qed.

Lemma quick_prompts_reach_their_topic_witness :
  exists t,
    detectTopic "How does NLP work?" = Some t
    /\ replyTopic (chooseReply "How does NLP work?") = Some t
    /\ In t (topicsExplored (sessionData (turn afterFirst "How does NLP work?")))
    /\ messages (turn afterFirst "How does NLP work?")
       = messages afterFirst
         ++ [ {| role := user; content := Typed "How does NLP work?" |};
              {| role := assistant;
                 content := Canned (chooseReply "How does NLP work?") |} ].
Proof.
  apply (quick_prompts_reach_their_topic afterFirst "How does NLP work?").
  - simpl. tauto.
  - reflexivity.
Defined.

End Replies.

(* ------------------------------------------------------------------ *)
(** ** The session clock as displayed *)

Section Clock.

Import JS Display.

Lemma toString_inj (a b : Z) : toString a = toString b -> a = b.
Proof.
  unfold toString. intros H. apply DecimalZ.to_int_inj.
  assert (N : forall z, Z.to_int z <> Decimal.Pos Decimal.Nil
                        /\ Z.to_int z <> Decimal.Neg Decimal.Nil).
  { intros [|p|p]; simpl; split; try discriminate;
      intros [= E]; now apply (DecimalPos.Unsigned.to_uint_nonnil p). }
  apply (f_equal NilZero.int_of_string) in H.
  rewrite !NilZero.isi in H by apply N.
  now injection H.
Qed.

Lemma length_append (x y : string) :
  String.length (String.append x y) = (String.length x + String.length y)%nat.
Proof. induction x as [|c x IH]; simpl; [reflexivity | now rewrite IH]. Qed.

Lemma append_inj_suffix (x x' y y' : string) :
  String.length y = String.length y' ->
  String.append x y = String.append x' y' -> x = x' /\ y = y'.
Proof.
  revert x'. induction x as [|c x IH]; intros [|c' x'] L E; simpl in E.
  - now split.
  - exfalso. apply (f_equal String.length) in E. simpl in E.
    rewrite length_append in E. lia.
  - exfalso. apply (f_equal String.length) in E. simpl in E.
    rewrite length_append in E. lia.
  - injection E as -> E. destruct (IH x' L E) as [-> ->]. now split.
Qed.

Lemma two_digits (r : Z) :
  0 <= r < 60 ->
  padStart 2 "0" (toString r)
  = String (digit (r / 10)) (String (digit (r mod 10)) EmptyString).
Proof.
  intros H. rewrite <- (Z2Nat.id r) by lia.
  assert (Hn : (Z.to_nat r < 60)%nat) by lia.
  generalize dependent (Z.to_nat r). clear r H. intros n Hn.
  do 60 (destruct n as [|n]; [vm_compute; reflexivity|]).
  lia.
Qed.

Lemma digit_inj (d d' : Z) :
  0 <= d < 10 -> 0 <= d' < 10 -> digit d = digit d' -> d = d'.
Proof.
  intros H H' E. unfold digit in E.
  apply (f_equal nat_of_ascii) in E.
  rewrite !nat_ascii_embedding in E by lia. lia.
Qed.

Lemma formatTime_shape (seconds : Z) :
  0 <= seconds ->
  formatTime seconds
  = String.append (toString (seconds / 60))
      (String ":"
         (String (digit (seconds mod 60 / 10))
            (String (digit (seconds mod 60 mod 10)) EmptyString))).
Proof.
  intros H. unfold formatTime. cbn zeta.
  rewrite Z.rem_mod_nonneg by lia.
  rewrite two_digits by (apply Z.mod_pos_bound; lia).
  reflexivity.
Qed.

(** X9: for a clock that has not run backwards, [formatTime] shows the
    whole minutes in decimal, a colon, and the remaining seconds as
    exactly two decimal digits, the tens first. *)
Theorem formatTime_minutes_and_two_digits (seconds : Z) :
  0 <= seconds <= maxSafeInteger ->
  formatTime seconds
  = String.append (toString (seconds / 60))
      (String ":"
         (String (digit (seconds mod 60 / 10))
            (String (digit (seconds mod 60 mod 10)) EmptyString))).
Proof. intros [H _]. now apply formatTime_shape. Qed.

Lemma formatTime_minutes_and_two_digits_witness :
  formatTime 65
  = String.append (toString (65 / 60))
      (String ":"
         (String (digit (65 mod 60 / 10))
            (String (digit (65 mod 60 mod 10)) EmptyString))).
Proof.
  apply (formatTime_minutes_and_two_digits 65). unfold maxSafeInteger. lia.
Defined.

Lemma formatTime_inj (a b : Z) :
  0 <= a <= maxSafeInteger -> 0 <= b <= maxSafeInteger ->
  formatTime a = formatTime b -> a = b.
Proof.
  intros [Ha _] [Hb _] E.
  rewrite !formatTime_shape in E by assumption.
  apply append_inj_suffix in E as [Em Es]; [|reflexivity].
  apply toString_inj in Em.
  injection Es as E1 E2.
  pose proof (Z.mod_pos_bound a 60 ltac:(lia)) as Ra.
  pose proof (Z.mod_pos_bound b 60 ltac:(lia)) as Rb.
  apply digit_inj in E1;
    [| split; [apply Z.div_pos; lia | apply Z.div_lt_upper_bound; lia]
     | split; [apply Z.div_pos; lia | apply Z.div_lt_upper_bound; lia]].
  apply digit_inj in E2; [| apply Z.mod_pos_bound; lia | apply Z.mod_pos_bound; lia].
  assert (Er : a mod 60 = b mod 60).
  { rewrite (Z.div_mod (a mod 60) 10), (Z.div_mod (b mod 60) 10) by lia.
    now rewrite E1, E2. }
  rewrite (Z.div_mod a 60), (Z.div_mod b 60) by lia.
  now rewrite Em, Er.
Qed.

(** X10: two different session times are never displayed alike. *)
Theorem formatTime_distinguishes_times (a b : Z) :
  0 <= a <= maxSafeInteger -> 0 <= b <= maxSafeInteger ->
  a <> b -> formatTime a <> formatTime b.
Proof.
  intros Ha Hb N E. apply N. now apply formatTime_inj.
Qed.

Lemma formatTime_distinguishes_times_witness : formatTime 59 <> formatTime 60.
Proof.
  apply (formatTime_distinguishes_times 59 60); unfold maxSafeInteger; lia.
Defined.

End Clock.

(* ------------------------------------------------------------------ *)
(** ** [App]: what the server's answers can and cannot do *)

Section AppTurns.

Import JS App AppSession.



Lemma fold_setAdd_absorb (d acc : list string) :
  (forall x, In x d -> In x acc) -> fold_left setAdd d acc = acc.
Proof.
  induction d as [|x d IH]; intros H; simpl; [reflexivity|].
  unfold setAdd at 2.
  assert (E : arrIncludes acc x = true) by (apply arrIncludes_In, H; now left).
  rewrite E. apply IH. intros y Hy. apply H. now right.
Qed.

Lemma fromSet_absorb (l d : list string) :
  fromSet (fromSet (l ++ d) ++ d) = fromSet (l ++ d).
Proof.
  unfold fromSet at 1. rewrite fold_left_app.
  fold (fromSet (fromSet (l ++ d))).
  rewrite (fromSet_id _ (fromSet_NoDup (l ++ d))).
  apply fold_setAdd_absorb. intros x Hx.
  apply fromSet_In, in_or_app. now right.
Qed.



Lemma app_begin_fields (s : State) (m : string) (st : State) :
  handleSend_begin s = Some (m, st) ->
  isLoading s = false /\ truthy (trim (input s)) = true /\ m = trim (input s)
  /\ messages st
     = messages s ++ [ {| role := user; content := m; topics_of := None |} ]
  /\ input st = "" /\ isLoading st = true
  /\ learnerProfile st = learnerProfile s
  /\ topicsExplored (sessionData st) = topicsExplored (sessionData s)
  /\ questionsAsked (sessionData st) = questionsAsked (sessionData s) + 1
  /\ sessionTime (sessionData st) = sessionTime (sessionData s).
Proof.
  unfold handleSend_begin.
  destruct (truthy (trim (input s))), (isLoading s); simpl; try discriminate.
  intros [= <- <-]. repeat split.
Qed.

Lemma app_end_fields (o : Outcome) (st : State) :
  exists reply,
    role reply = assistant
    /\ messages (handleSend_end o st) = messages st ++ [reply]
    /\ isLoading (handleSend_end o st) = false
    /\ input (handleSend_end o st) = input st
    /\ questionsAsked (sessionData (handleSend_end o st))
       = questionsAsked (sessionData st)
    /\ sessionTime (sessionData (handleSend_end o st))
       = sessionTime (sessionData st)
    /\ (topicsExplored (sessionData (handleSend_end o st))
        = topicsExplored (sessionData st)
        \/ exists d, topicsExplored (sessionData (handleSend_end o st))
                     = fromSet (topicsExplored (sessionData st) ++ d)).
Proof.
  destruct o as [| |data]; unfold handleSend_end.
  - eexists. repeat split; try reflexivity. now left.
  - eexists. repeat split; try reflexivity. now left.
  - unfold handleServerResponse.
    destruct (hasTopics (topics_detected data)); eexists;
      (split; [|split; [reflexivity|]]); try reflexivity;
      repeat split; try reflexivity.
    + right. now exists (orEmpty (topics_detected data)).
    + now left.
Qed.

(** X11: a message that passes the guard always comes to an end, whether
    the server answers, refuses or cannot be reached: exactly two
    messages are appended, the learner's trimmed text and one assistant
    message; the input box is empty, the loading flag is down,
    questionsAsked has grown by one and the clock is untouched. *)
Theorem app_turn_always_ends (s : State) (o : Outcome) :
  truthy (trim (input s)) = true -> isLoading s = false ->
  exists reply,
    role reply = assistant
    /\ messages (handleSend o s)
       = messages s ++ [ {| role := user; content := trim (input s);
                            topics_of := None |}; reply ]
    /\ input (handleSend o s) = ""
    /\ isLoading (handleSend o s) = false
    /\ questionsAsked (sessionData (handleSend o s))
       = questionsAsked (sessionData s) + 1
    /\ sessionTime (sessionData (handleSend o s)) = sessionTime (sessionData s).
Proof.
  intros Ht Hl. unfold handleSend.
  destruct (handleSend_begin s) as [[m st]|] eqn:B.
  - destruct (app_begin_fields _ _ _ B) as (_ & _ & -> & M & I & _ & _ & _ & Q & T).
    destruct (app_end_fields o st) as (reply & R & M' & L' & I' & Q' & T' & _).
    exists reply. rewrite M', M, <- app_assoc, I', I, Q', Q, T', T.
    repeat split; assumption.
  - unfold handleSend_begin in B. rewrite Ht, Hl in B. discriminate.
Qed.

Lemma app_turn_always_ends_witness :
  exists reply,
    role reply = assistant
    /\ messages (handleSend Rejected (setInput " hello " initialState))
       = messages (setInput " hello " initialState)
         ++ [ {| role := user; content := trim " hello "; topics_of := None |};
              reply ]
    /\ input (handleSend Rejected (setInput " hello " initialState)) = ""
    /\ isLoading (handleSend Rejected (setInput " hello " initialState)) = false
    /\ questionsAsked (sessionData (handleSend Rejected (setInput " hello " initialState)))
       = questionsAsked (sessionData (setInput " hello " initialState)) + 1
    /\ sessionTime (sessionData (handleSend Rejected (setInput " hello " initialState)))
       = sessionTime (sessionData (setInput " hello " initialState)).
Proof.
  apply (app_turn_always_ends (setInput " hello " initialState) Rejected);
    reflexivity.
Defined.

(** X12: whatever topics the server reports, repeated or known already,
    after [handleServerResponse] the profile's topics hold no entry
    twice, and they hold exactly the topics held before and the topics
    reported. *)
Theorem server_topics_are_merged (data : ServerData) (s : State) (t : string) :
  NoDup (topics (learnerProfile (handleServerResponse data s)))
  /\ (In t (topics (learnerProfile (handleServerResponse data s)))
      <-> In t (topics (learnerProfile s))
          \/ In t (orEmpty (topics_detected data))).
Proof.
  assert (E : topics (learnerProfile (handleServerResponse data s))
              = fromSet (topics (learnerProfile s)
                         ++ orEmpty (topics_detected data))).
  { unfold handleServerResponse.
    destruct (hasTopics (topics_detected data)); reflexivity. }
  rewrite E. split; [apply fromSet_NoDup|].
  rewrite fromSet_In. apply in_app_iff.
Qed.

(** X13: an answer delivered twice changes profile and session no
    further than the same answer delivered once. *)
Theorem server_response_twice_is_once (data : ServerData) (s : State) :
  learnerProfile (handleServerResponse data (handleServerResponse data s))
  = learnerProfile (handleServerResponse data s)
  /\ sessionData (handleServerResponse data (handleServerResponse data s))
     = sessionData (handleServerResponse data s).
Proof.
  unfold handleServerResponse.
  destruct (hasTopics (topics_detected data));
    cbn [learnerProfile sessionData setSessionData setLearnerProfile setMessages
         name level progress topics questionsAsked topicsExplored sessionTime];
    rewrite ?fromSet_absorb; split; reflexivity.
Qed.

End AppTurns.

(* ------------------------------------------------------------------ *)
(** ** [App] as a transition system *)

Section AppMachine.

Import JS App AppSession.









Lemma orLevel_twice (o : option string) (prev : string) :
  orLevel o (orLevel o prev) = orLevel o prev.
Proof. destruct o as [l|]; simpl; [destruct (truthy l)|]; reflexivity. Qed.

Lemma orProgress_twice (o : option Z) (prev : Z) :
  orProgress o (orProgress o prev) = orProgress o prev.
Proof. destruct o as [p|]; simpl; [destruct (Z.eqb p 0)|]; reflexivity. Qed.

(** X17: a progress event cannot take progress back to 0 nor blank the
    level: a pushed progress of 0 and a pushed empty level count as
    absent, so a profile with progress other than 0 and a level that is
    not empty keeps both properties through every progress event. *)
Theorem progress_event_never_resets (data : ProgressData) (s : State) :
  progress (learnerProfile s) <> 0 ->
  level (learnerProfile s) <> "" ->
  progress (learnerProfile (updateProfile data s)) <> 0
  /\ level (learnerProfile (updateProfile data s)) <> "".
Proof.
  intros Hp Hl. unfold updateProfile. cbn [learnerProfile setLearnerProfile
                                           progress level].
  split.
  - destruct (pushed_progress data) as [p|]; simpl; [|exact Hp].
    destruct (Z.eqb_spec p 0); assumption.
  - destruct (pushed_level data) as [l|]; simpl; [|exact Hl].
    destruct l; simpl; [exact Hl | discriminate].
Qed.

Lemma progress_event_never_resets_witness :
  progress (learnerProfile
              (updateProfile
                 {| pushed_level := Some ""; pushed_progress := Some 0;
                    pushed_topics := None |}
                 (fetchProfile
                    (ProfileOk {| fetched_level := "Intermediate";
                                  fetched_progress := 45;
                                  fetched_topics := None |})
                    initialState))) <> 0
  /\ level (learnerProfile
              (updateProfile
                 {| pushed_level := Some ""; pushed_progress := Some 0;
                    pushed_topics := None |}
                 (fetchProfile
                    (ProfileOk {| fetched_level := "Intermediate";
                                  fetched_progress := 45;
                                  fetched_topics := None |})
                    initialState))) <> "".
Proof.
  apply (progress_event_never_resets
           {| pushed_level := Some ""; pushed_progress := Some 0;
              pushed_topics := None |}
           (fetchProfile
              (ProfileOk {| fetched_level := "Intermediate";
                            fetched_progress := 45;
                            fetched_topics := None |})
              initialState)); simpl; discriminate.
Defined.

(** X18: a progress event applied twice leaves the state it leaves when
    applied once. *)
Theorem progress_event_twice_is_once (data : ProgressData) (s : State) :
  updateProfile data (updateProfile data s) = updateProfile data s.
Proof.
  unfold updateProfile, setLearnerProfile. simpl.
  rewrite orLevel_twice, orProgress_twice.
  destruct (pushed_topics data); reflexivity.
Qed.

End AppMachine.

(* ------------------------------------------------------------------ *)
(** ** Asking again (app.jsx) *)

Section AskingAgain.

Import JS EducationalAIAgent Invariant Scenario Display.

Lemma turn_at_rest (s : State) (text : string) :
  isLoading s = false -> isLoading (turn s text) = false.
Proof.
  intros Hl. unfold turn. rewrite handleSend_cut.
  destruct (handleSend_begin (setInput text s)) as [[m st]|]; [reflexivity|].
  exact Hl.
Qed.

(** X19: the same message sent a second time earns nothing: after a turn
    from a state at rest, a second turn with the same text leaves the
    learner profile and the topics explored as the first turn left
    them. *)
Theorem asking_again_earns_nothing (s : State) (text : string) :
  isLoading s = false ->
  learnerProfile (turn (turn s text) text) = learnerProfile (turn s text)
  /\ topicsExplored (sessionData (turn (turn s text) text))
     = topicsExplored (sessionData (turn s text)).
Proof.
  intros Hl.
  assert (N : accepted (setInput text (turn s text)) = true ->
              newTopic (sessionData (turn s text)) (trim text) = None).
  { unfold accepted. cbn [input isLoading setInput]. intros A.
    apply andb_true_iff in A as [Ht _].
    unfold newTopic. destruct (detectTopic (trim text)) as [t|] eqn:D; [|reflexivity].
    pose proof (turn_explores s text t Ht Hl D) as Hin.
    apply arrIncludes_In in Hin. now rewrite Hin. }
  remember (turn s text) as s1 eqn:E1.
  unfold turn. rewrite handleSend_profile, handleSend_explored.
  destruct (accepted (setInput text s1)) eqn:A; [|now split].
  cbn [sessionData learnerProfile input setInput].
  rewrite (N eq_refl). now split.
Qed.

Lemma asking_again_earns_nothing_witness :
  learnerProfile (turn (turn initialState firstMessage) firstMessage)
  = learnerProfile (turn initialState firstMessage)
  /\ topicsExplored (sessionData (turn (turn initialState firstMessage) firstMessage))
     = topicsExplored (sessionData (turn initialState firstMessage)).
Proof.
  apply (asking_again_earns_nothing initialState firstMessage). reflexivity.
Defined.

End AskingAgain.
